(** * Wallet button adapter (src/custom/pages/fast-checkout.vue)

    The file holds two Vue single-file components.  The first one embeds the
    Google Pay button: it injects the vendor script, builds a payments
    client, probes readiness, mounts the vendor button, and relays the payment
    data to a backend.  The second one (Stripe payment-request button) computes
    the amount to charge from a cart kept in local storage.

    The component code is event driven: every [await] and every [.then]
    splits a function into segments that run to completion on the UI thread.
    The embedding keeps that shape.  The component's variables form a record
    [State]; each segment is a function on [State]; the promises that are in
    flight are kept in [pending]; the environment (browser, vendor, backend,
    user) picks the next [Action].  Calls that leave the component ([emit],
    [fetch], [loadPaymentData], [document.head.appendChild]) are logged in the
    state in call order.  [console.log] and [console.error] are not modelled. *)

From Stdlib Require Import String List Bool Arith Lia PrimFloat.
Import ListNotations.
Local Open Scope string_scope.
Local Open Scope list_scope.

(** ** Second component: cart total of the Stripe widget *)

(** A JS number is an IEEE 754 binary64 value: Rocq's primitive [float]. *)
Definition Number := float.

(** [item.qty] as read from the stored cart: absent ([undefined]), [null], or a
    number.  Other JS values of [qty] are outside this model. *)
Inductive JsQty : Type :=
| QtyUndefined
| QtyNull
| QtyNumber (q : Number).

Record Product : Type := mkProduct { name : string; price : Number }.

Record CartItem : Type := mkCartItem { product : Product; qty : JsQty }.

(** JS truthiness of a number: every number but [0], [-0] and [NaN]. *)
Definition number_truthy (x : Number) : bool :=
  negb (PrimFloat.is_nan x || PrimFloat.is_zero x).

(** JS truthiness of [item.qty]. *)
Definition qty_truthy (q : JsQty) : bool :=
  match q with
  | QtyNumber x => number_truthy x
  | QtyUndefined | QtyNull => false
  end.

(** [item.qty || 1] *)
Definition qty_or_1 (q : JsQty) : Number :=
  match q with
  | QtyNumber x => if number_truthy x then x else 1%float
  | QtyUndefined | QtyNull => 1%float
  end.

Definition two52 : Number := 4503599627370496%float.

(** Largest integer not above [x], for [0 <= x < 2^52].  Adding and removing
    [2^52] rounds [x] to an integer (to nearest, ties to even); the result is
    one too large exactly when it exceeds [x]. *)
Definition floor_small (x : Number) : Number :=
  let r := ((x + two52) - two52)%float in
  if (x <? r)%float then (r - 1)%float else r.

(** [Math.round]: the integral number closest to [x], a tie going towards
    +infinity; [NaN], the infinities and both zeros are returned as they are;
    a result of zero magnitude for a negative [x] is [-0].  Every binary64
    value of magnitude [2^52] or more is integral. *)
Definition Math_round (x : Number) : Number :=
  if PrimFloat.is_nan x then x
  else if PrimFloat.is_zero x then x
  else if (two52 <=? PrimFloat.abs x)%float then x
  else if (0 <? x)%float then
    let f := floor_small x in
    if (0.5 <=? x - f)%float then (f + 1)%float else f
  else
    let a := (- x)%float in
    let f := floor_small a in
    (- (if (0.5 <? a - f)%float then (f + 1)%float else f))%float.

(** The callback of [cart.value.reduce]:
    [sum + Math.round(item.product.price * 100) * (item.qty || 1)]. *)
Definition add_item (sum : Number) (item : CartItem) : Number :=
  (sum + Math_round (price (product item) * 100) * qty_or_1 (qty item))%float.

(** [totalAmount]: [cart.value.reduce(callback, 0)], a fold from the left. *)
Definition totalAmount (cart : list CartItem) : Number :=
  fold_left add_item cart 0%float.

(** ** First component: the Google Pay button *)

(** *** Configuration and payloads *)

(** [type Env = 'TEST' | 'PRODUCTION'] *)
Inductive Env : Type := TEST | PRODUCTION.

(** The component's props; the default of each is in [defaultProps]. *)
Record Props : Type := mkProps {
  amount : string;
  currency : string;
  merchantName : string;
  environment : Env;
  gateway : string;
  gatewayMerchantId : string;
  processEndpoint : string;
  autoSendToServer : bool
}.

Definition defaultProps : Props :=
  {| amount := "1.00";
     currency := "USD";
     merchantName := "Example Merchant";
     environment := TEST;
     gateway := "example";
     gatewayMerchantId := "BCR2DN5T5CC5PV3C";
     processEndpoint := "/process-payment";
     autoSendToServer := true |}.

Definition allowedCardNetworks : list string :=
  ["AMEX"; "DISCOVER"; "MASTERCARD"; "VISA"].

Definition allowedCardAuthMethods : list string :=
  ["PAN_ONLY"; "CRYPTOGRAM_3DS"].

Record TokenizationSpecification : Type := mkTokenizationSpecification {
  ts_type : string;
  ts_gateway : string;
  ts_gatewayMerchantId : string
}.

Record CardParameters : Type := mkCardParameters {
  allowedAuthMethods : list string;
  allowedNetworks : list string;
  billingAddressRequired : bool;
  billingAddressFormat : string
}.

Record PaymentMethod : Type := mkPaymentMethod {
  pm_type : string;
  pm_parameters : CardParameters;
  pm_tokenizationSpecification : TokenizationSpecification
}.

Record TransactionInfo : Type := mkTransactionInfo {
  totalPriceStatus : string;
  totalPrice : string;
  currencyCode : string
}.

Record MerchantInfo : Type := mkMerchantInfo { mi_merchantName : string }.

Record PaymentDataRequest : Type := mkPaymentDataRequest {
  apiVersion : nat;
  apiVersionMinor : nat;
  allowedPaymentMethods : list PaymentMethod;
  transactionInfo : TransactionInfo;
  merchantInfo : MerchantInfo
}.

Definition tokenizationSpecification (props : Props) : TokenizationSpecification :=
  {| ts_type := "PAYMENT_GATEWAY";
     ts_gateway := gateway props;
     ts_gatewayMerchantId := gatewayMerchantId props |}.

Definition cardPaymentMethod (props : Props) : PaymentMethod :=
  {| pm_type := "CARD";
     pm_parameters :=
       {| allowedAuthMethods := allowedCardAuthMethods;
          allowedNetworks := allowedCardNetworks;
          billingAddressRequired := true;
          billingAddressFormat := "FULL" |};
     pm_tokenizationSpecification := tokenizationSpecification props |}.

(** A parameter with a default value takes the default when the argument is
    left out ([None]). *)
Definition or_default {A : Type} (arg : option A) (default : A) : A :=
  match arg with
  | Some a => a
  | None => default
  end.

(** [getPaymentDataRequest(totalPrice = props.amount, currencyCode = props.currency)] *)
Definition getPaymentDataRequest (props : Props)
    (totalPrice_arg currencyCode_arg : option string) : PaymentDataRequest :=
  {| apiVersion := 2;
     apiVersionMinor := 0;
     allowedPaymentMethods := [cardPaymentMethod props];
     transactionInfo :=
       {| totalPriceStatus := "FINAL";
          totalPrice := or_default totalPrice_arg (amount props);
          currencyCode := or_default currencyCode_arg (currency props) |};
     merchantInfo := {| mi_merchantName := merchantName props |} |}.

(** *** Values that cross the component's border *)

(** A DOM element, by identity. *)
Definition Node := nat.

(** The payment data the vendor resolves with: opaque to the component. *)
Definition PaymentData := string.

(** What a promise rejects with or a statement throws. *)
Inductive Err : Type :=
| ScriptLoadFailed            (* new Error('Failed to load Google Pay script') *)
| TypeError                   (* reading through an undefined window.google *)
| VendorError (msg : string)  (* a rejection of the payments client *)
| NetworkError (msg : string) (* a rejection of fetch *).

(** The calls of [emit]. *)
Inductive Event : Type :=
| EvSuccess (payload : PaymentData)
| EvError (error : Err)
| EvReady (available : bool).

(** A call of [fetch]: the URL, the method and the JSON body's [paymentData]. *)
Record Post : Type := mkPost {
  post_url : string;
  post_method : string;
  post_paymentData : PaymentData
}.

(** The response [fetch] resolves with. *)
Record Response : Type := mkResponse { resp_status : nat }.

(** [new PaymentsClient({ environment })]; [client_id] tells two clients apart. *)
Record Client : Type := mkClient { client_environment : Env; client_id : nat }.

(** The promises the component waits for, each with the continuation that
    hangs on it. *)
Inductive Pending : Type :=
| AwaitScript (injected : bool)
    (* [await loadGooglePayScript()]; [injected = false]: already resolved *)
| AwaitIsReady
    (* [await paymentsClient.isReadyToPay(...)] *)
| AwaitLoadPaymentData (request : PaymentDataRequest)
    (* [paymentsClient.loadPaymentData(request).then(...).catch(...)] *)
| AwaitFetch (paymentData : PaymentData)
    (* [await fetch(props.processEndpoint, ...)] *)
| AwaitJson
    (* [await res.json().catch(() => null)] *).

(** *** Component state *)

Record State : Type := mkState {
  status : string;                      (* status.value *)
  loading : bool;                       (* loading.value *)
  paymentsClient : option Client;
  buttonElement : option Node;
  scriptEl : option Node;
  buttonContainer : option (list Node); (* buttonContainer.value, with its children *)
  googleApi : bool;                     (* window.google.payments.api is there *)
  head : list Node;                     (* children of document.head *)
  emitted : list Event;                 (* calls of emit, oldest first *)
  posts : list Post;                    (* calls of fetch, oldest first *)
  loadCalls : list PaymentDataRequest;  (* calls of loadPaymentData, oldest first *)
  injected : list Node;                 (* elements appended to document.head *)
  pending : list (nat * Pending);       (* promises in flight, by identity *)
  fresh : nat                           (* next unused identity *)
}.

Definition set_status (v : string) (st : State) : State :=
  mkState v (loading st) (paymentsClient st) (buttonElement st) (scriptEl st)
    (buttonContainer st) (googleApi st) (head st) (emitted st) (posts st)
    (loadCalls st) (injected st) (pending st) (fresh st).

Definition set_loading (v : bool) (st : State) : State :=
  mkState (status st) v (paymentsClient st) (buttonElement st) (scriptEl st)
    (buttonContainer st) (googleApi st) (head st) (emitted st) (posts st)
    (loadCalls st) (injected st) (pending st) (fresh st).

Definition set_paymentsClient (v : option Client) (st : State) : State :=
  mkState (status st) (loading st) v (buttonElement st) (scriptEl st)
    (buttonContainer st) (googleApi st) (head st) (emitted st) (posts st)
    (loadCalls st) (injected st) (pending st) (fresh st).

Definition set_buttonElement (v : option Node) (st : State) : State :=
  mkState (status st) (loading st) (paymentsClient st) v (scriptEl st)
    (buttonContainer st) (googleApi st) (head st) (emitted st) (posts st)
    (loadCalls st) (injected st) (pending st) (fresh st).

Definition set_scriptEl (v : option Node) (st : State) : State :=
  mkState (status st) (loading st) (paymentsClient st) (buttonElement st) v
    (buttonContainer st) (googleApi st) (head st) (emitted st) (posts st)
    (loadCalls st) (injected st) (pending st) (fresh st).

Definition set_buttonContainer (v : option (list Node)) (st : State) : State :=
  mkState (status st) (loading st) (paymentsClient st) (buttonElement st)
    (scriptEl st) v (googleApi st) (head st) (emitted st) (posts st)
    (loadCalls st) (injected st) (pending st) (fresh st).

Definition set_googleApi (v : bool) (st : State) : State :=
  mkState (status st) (loading st) (paymentsClient st) (buttonElement st)
    (scriptEl st) (buttonContainer st) v (head st) (emitted st) (posts st)
    (loadCalls st) (injected st) (pending st) (fresh st).

Definition set_head (v : list Node) (st : State) : State :=
  mkState (status st) (loading st) (paymentsClient st) (buttonElement st)
    (scriptEl st) (buttonContainer st) (googleApi st) v (emitted st) (posts st)
    (loadCalls st) (injected st) (pending st) (fresh st).

Definition set_emitted (v : list Event) (st : State) : State :=
  mkState (status st) (loading st) (paymentsClient st) (buttonElement st)
    (scriptEl st) (buttonContainer st) (googleApi st) (head st) v (posts st)
    (loadCalls st) (injected st) (pending st) (fresh st).

Definition set_posts (v : list Post) (st : State) : State :=
  mkState (status st) (loading st) (paymentsClient st) (buttonElement st)
    (scriptEl st) (buttonContainer st) (googleApi st) (head st) (emitted st) v
    (loadCalls st) (injected st) (pending st) (fresh st).

Definition set_loadCalls (v : list PaymentDataRequest) (st : State) : State :=
  mkState (status st) (loading st) (paymentsClient st) (buttonElement st)
    (scriptEl st) (buttonContainer st) (googleApi st) (head st) (emitted st)
    (posts st) v (injected st) (pending st) (fresh st).

Definition set_injected (v : list Node) (st : State) : State :=
  mkState (status st) (loading st) (paymentsClient st) (buttonElement st)
    (scriptEl st) (buttonContainer st) (googleApi st) (head st) (emitted st)
    (posts st) (loadCalls st) v (pending st) (fresh st).

Definition set_pending (v : list (nat * Pending)) (st : State) : State :=
  mkState (status st) (loading st) (paymentsClient st) (buttonElement st)
    (scriptEl st) (buttonContainer st) (googleApi st) (head st) (emitted st)
    (posts st) (loadCalls st) (injected st) v (fresh st).

Definition set_fresh (v : nat) (st : State) : State :=
  mkState (status st) (loading st) (paymentsClient st) (buttonElement st)
    (scriptEl st) (buttonContainer st) (googleApi st) (head st) (emitted st)
    (posts st) (loadCalls st) (injected st) (pending st) v.

(** *** DOM operations on a list of children *)

(** [parent.contains(n)], for [n] a child of [parent]. *)
Definition contains (kids : list Node) (n : Node) : bool :=
  existsb (Nat.eqb n) kids.

(** [parent.removeChild(n)] *)
Definition removeChild (kids : list Node) (n : Node) : list Node :=
  filter (fun k => negb (Nat.eqb n k)) kids.

(** [parent.appendChild(n)]: a node that is already in the tree is moved. *)
Definition appendChild (kids : list Node) (n : Node) : list Node :=
  removeChild kids n ++ [n].

(** *** The component's functions *)

(** [function updateStatus(msg) { status.value = msg; }] *)
Definition updateStatus (msg : string) (st : State) : State :=
  set_status msg st.

(** [emit(...)] *)
Definition emit (e : Event) (st : State) : State :=
  set_emitted (emitted st ++ [e]) st.

(** Suspends on a promise: the continuation [p] waits under a new identity. *)
Definition await (p : Pending) (st : State) : State :=
  set_fresh (S (fresh st)) (set_pending (pending st ++ [(fresh st, p)]) st).

(** [loadGooglePayScript]: the state after the call and the promise returned
    ([AwaitScript false]: [Promise.resolve()]). *)
Definition loadGooglePayScript (st : State) : State * Pending :=
  if googleApi st then (st, AwaitScript false)
  else
    let el := fresh st in
    (set_fresh (S el)
       (set_injected (injected st ++ [el])
          (set_head (appendChild (head st) el)
             (set_scriptEl (Some el) st))),
     AwaitScript true).

(** [initPaymentsClient]: throws when [window.google] is not there. *)
Definition initPaymentsClient (props : Props) (st : State) : Err + State :=
  if googleApi st then
    inr (set_fresh (S (fresh st))
           (set_paymentsClient (Some (mkClient (environment props) (fresh st))) st))
  else inl TypeError.

(** The block shared by [createAndAddButton] and [onBeforeUnmount]:
    [if (buttonElement && buttonContainer.value?.contains(buttonElement))
       { buttonContainer.value.removeChild(buttonElement); buttonElement = null; }] *)
Definition detachButton (st : State) : State :=
  match buttonElement st, buttonContainer st with
  | Some b, Some kids =>
      if contains kids b then
        set_buttonElement None (set_buttonContainer (Some (removeChild kids b)) st)
      else st
  | _, _ => st
  end.

(** [createAndAddButton]; [created] is what [paymentsClient.createButton]
    returns when it is called: an element, or nothing ([None]). *)
Definition createAndAddButton (created : option Node) (st : State) : State :=
  match paymentsClient st with
  | None => st
  | Some _ =>
      let st1 := set_buttonElement created (detachButton st) in
      match buttonContainer st1, created with
      | Some kids, Some b => set_buttonContainer (Some (appendChild kids b)) st1
      | _, _ => st1
      end
  end.

(** [initGooglePay], up to [await loadGooglePayScript()]. *)
Definition initGooglePay (st : State) : State :=
  let (st1, p) := loadGooglePayScript st in await p st1.

(** [initGooglePay]: the first [catch]. *)
Definition initGooglePay_scriptRejected (err : Err) (st : State) : State :=
  emit (EvError err)
    (set_loading false (updateStatus "Could not load Google Pay script." st)).

(** [initGooglePay]: the second [catch], with its [finally]. *)
Definition initGooglePay_checkFailed (err : Err) (st : State) : State :=
  set_loading false
    (emit (EvError err) (updateStatus "Error checking Google Pay availability." st)).

(** [initGooglePay] from the first [await] to the second. *)
Definition initGooglePay_scriptResolved (props : Props) (st : State) : State :=
  match initPaymentsClient props st with
  | inl err => initGooglePay_checkFailed err st
  | inr st1 => await AwaitIsReady st1
  end.

(** [initGooglePay] after [isReadyToPay] resolved with [{ result }]. *)
Definition initGooglePay_readyResolved (result : bool) (created : option Node)
    (st : State) : State :=
  set_loading false
    (if result then
       updateStatus "Google Pay is available. Click the button to pay."
         (createAndAddButton created (emit (EvReady true) st))
     else
       updateStatus "Google Pay is not available in this environment/profile."
         (emit (EvReady false) st)).

(** [onGooglePayButtonClicked] *)
Definition onGooglePayButtonClicked (props : Props) (st : State) : State :=
  match paymentsClient st with
  | None => updateStatus "Payments client not initialized." st
  | Some _ =>
      let request := getPaymentDataRequest props None None in
      await (AwaitLoadPaymentData request)
        (set_loadCalls (loadCalls st ++ [request]) st)
  end.

(** The [.catch] handler of [loadPaymentData]. *)
Definition loadPaymentData_rejected (err : Err) (st : State) : State :=
  emit (EvError err) (updateStatus "Payment cancelled or failed; check console." st).

(** [handlePaymentSuccess], up to [await fetch(...)]. *)
Definition handlePaymentSuccess (props : Props) (paymentData : PaymentData)
    (st : State) : State :=
  let st1 := emit (EvSuccess paymentData)
               (updateStatus "Payment authorized. Processing..." st) in
  if autoSendToServer props then
    await (AwaitFetch paymentData)
      (set_posts (posts st1 ++ [mkPost (processEndpoint props) "POST" paymentData]) st1)
  else st1.

(** [handlePaymentSuccess] after [fetch] resolved: [res.json().catch(() => null)]
    is awaited; the response's status is not read. *)
Definition handlePaymentSuccess_fetchResolved (res : Response) (st : State) : State :=
  await AwaitJson st.

(** [handlePaymentSuccess] after the body was read; [body = None] is the
    [null] the [.catch] puts in place of a body that does not parse. *)
Definition handlePaymentSuccess_bodyRead (body : option string) (st : State) : State :=
  updateStatus "Server processed payment." st.

(** [handlePaymentSuccess]: the [catch]. *)
Definition handlePaymentSuccess_fetchRejected (err : Err) (st : State) : State :=
  emit (EvError err) (updateStatus "Error sending token to server; see console." st).

(** The [onBeforeUnmount] hook. *)
Definition onBeforeUnmount (st : State) : State :=
  let st1 :=
    match scriptEl st with
    | Some el =>
        if contains (head st) el then
          set_scriptEl None (set_head (removeChild (head st) el) st)
        else st
    | None => st
    end in
  detachButton (set_paymentsClient None st1).

(** *** The event loop *)

(** What the environment can do next. *)
Inductive Action : Type :=
| Mounted                                   (* Vue runs the onMounted hook *)
| ScriptLoaded (id : nat) (defines_api : bool)
    (* the awaited script promise resolves; an injected script has run and
       [defines_api] says whether it defined window.google.payments.api *)
| ScriptFailed (id : nat)                   (* scriptEl.onerror *)
| IsReadyResolved (id : nat) (result : bool) (created : option Node)
| IsReadyRejected (id : nat) (err : Err)
| Clicked                                   (* the vendor button calls onClick *)
| PaymentResolved (id : nat) (paymentData : PaymentData)
| PaymentRejected (id : nat) (err : Err)
| FetchResolved (id : nat) (res : Response)
| FetchRejected (id : nat) (err : Err)
| JsonSettled (id : nat) (body : option string)
| BeforeUnmount                             (* Vue runs the onBeforeUnmount hook *)
| Unmounted                                 (* Vue resets the template ref *).

(** Takes the promise [id] out of the promises in flight. *)
Fixpoint take_pending (id : nat) (ps : list (nat * Pending))
    : option (Pending * list (nat * Pending)) :=
  match ps with
  | [] => None
  | (k, p) :: rest =>
      if Nat.eqb id k then Some (p, rest)
      else
        match take_pending id rest with
        | Some (q, rest') => Some (q, (k, p) :: rest')
        | None => None
        end
  end.

(** One turn of the event loop; [None] when the action cannot happen (the
    promise is not in flight, or it cannot settle that way). *)
Definition step (props : Props) (st : State) (a : Action) : option State :=
  match a with
  | Mounted => Some (initGooglePay st)
  | Clicked => Some (onGooglePayButtonClicked props st)
  | BeforeUnmount => Some (onBeforeUnmount st)
  | Unmounted => Some (set_buttonContainer None st)
  | ScriptLoaded id defines_api =>
      match take_pending id (pending st) with
      | Some (AwaitScript inj, rest) =>
          let st1 := set_pending rest st in
          let st2 := if inj then set_googleApi (googleApi st1 || defines_api) st1
                     else st1 in
          Some (initGooglePay_scriptResolved props st2)
      | _ => None
      end
  | ScriptFailed id =>
      match take_pending id (pending st) with
      | Some (AwaitScript true, rest) =>
          Some (initGooglePay_scriptRejected ScriptLoadFailed (set_pending rest st))
      | _ => None
      end
  | IsReadyResolved id result created =>
      match take_pending id (pending st) with
      | Some (AwaitIsReady, rest) =>
          Some (initGooglePay_readyResolved result created (set_pending rest st))
      | _ => None
      end
  | IsReadyRejected id err =>
      match take_pending id (pending st) with
      | Some (AwaitIsReady, rest) =>
          Some (initGooglePay_checkFailed err (set_pending rest st))
      | _ => None
      end
  | PaymentResolved id paymentData =>
      match take_pending id (pending st) with
      | Some (AwaitLoadPaymentData _, rest) =>
          Some (handlePaymentSuccess props paymentData (set_pending rest st))
      | _ => None
      end
  | PaymentRejected id err =>
      match take_pending id (pending st) with
      | Some (AwaitLoadPaymentData _, rest) =>
          Some (loadPaymentData_rejected err (set_pending rest st))
      | _ => None
      end
  | FetchResolved id res =>
      match take_pending id (pending st) with
      | Some (AwaitFetch _, rest) =>
          Some (handlePaymentSuccess_fetchResolved res (set_pending rest st))
      | _ => None
      end
  | FetchRejected id err =>
      match take_pending id (pending st) with
      | Some (AwaitFetch _, rest) =>
          Some (handlePaymentSuccess_fetchRejected err (set_pending rest st))
      | _ => None
      end
  | JsonSettled id body =>
      match take_pending id (pending st) with
      | Some (AwaitJson, rest) =>
          Some (handlePaymentSuccess_bodyRead body (set_pending rest st))
      | _ => None
      end
  end.

(** A sequence of turns. *)
Fixpoint run (props : Props) (st : State) (trace : list Action) : option State :=
  match trace with
  | [] => Some st
  | a :: trace' =>
      match step props st a with
      | Some st' => run props st' trace'
      | None => None
      end
  end.

(** The component when its setup has run and the template is rendered, before
    the [onMounted] hook; [api] says whether the page already has
    [window.google.payments.api]. *)
Definition initial (api : bool) : State :=
  {| status := ""; loading := true;
     paymentsClient := None; buttonElement := None; scriptEl := None;
     buttonContainer := Some []; googleApi := api; head := [];
     emitted := []; posts := []; loadCalls := []; injected := [];
     pending := []; fresh := 0 |}.

(** The states the component can be in. *)
Definition reachable (props : Props) (st : State) : Prop :=
  exists api trace, run props (initial api) trace = Some st.

(** [mountButton()] called once per element of [bs], each element being what
    the vendor's [createButton] returns in that call. *)
Definition mountButton_times (bs : list (option Node)) (st : State) : State :=
  fold_left (fun s created => createAndAddButton created s) bs st.

(** The ButtonElements attached to the button container. *)
Definition attachedButtons (st : State) : list Node :=
  match buttonContainer st with
  | Some kids => kids
  | None => []
  end.

(** The payment flows in progress: the [loadPaymentData] promises not settled. *)
Definition outstandingFlows (st : State) : nat :=
  length (filter (fun e => match snd e with AwaitLoadPaymentData _ => true | _ => false end)
            (pending st)).

(** Ownership of the button: the container holds nothing, or exactly the
    element [buttonElement] points to. *)
Definition button_inv (st : State) : Prop :=
  match buttonContainer st with
  | None => True
  | Some kids => kids = [] \/ exists b, kids = [b] /\ buttonElement st = Some b
  end.

(** No button was ever mounted. *)
Definition no_button (st : State) : Prop :=
  attachedButtons st = [] /\ buttonElement st = None.

(** The actions that are not a positive answer of the readiness check. *)
Definition not_positive_ready (a : Action) : bool :=
  match a with
  | IsReadyResolved _ true _ => false
  | _ => true
  end.

(** ** The cart total in the words of its description *)

(** The quantity that counts: a missing or falsy [qty] counts as one. *)
Definition effective_qty (q : JsQty) : Number :=
  if qty_truthy q then
    match q with
    | QtyNumber x => x
    | QtyUndefined | QtyNull => 1%float
    end
  else 1%float.

(** What one cart line costs in cents: [round(price * 100) * qty]. *)
Definition line_cents (item : CartItem) : Number :=
  (Math_round (price (product item) * 100) * effective_qty (qty item))%float.

(** The sum of a list of numbers, added in list order starting from zero. *)
Fixpoint sum_from (acc : Number) (xs : list Number) : Number :=
  match xs with
  | [] => acc
  | x :: xs' => sum_from (acc + x)%float xs'
  end.

(** The sum over the cart's items of what each line costs. *)
Definition cart_sum (cart : list CartItem) : Number :=
  sum_from 0%float (map line_cents cart).

(** ** Sample runs *)

(** A stored cart: two items at 19.99, one at 1.005 without a quantity, one
    at 5 with quantity 0.  The prices are the binary64 values nearest to the
    decimal ones. *)
Definition sample_cart : list CartItem :=
  [ mkCartItem (mkProduct "lamp" 0x1.3fd70a3d70a3dp+4%float) (QtyNumber 2%float);
    mkCartItem (mkProduct "cable" 0x1.0147ae147ae14p+0%float) QtyUndefined;
    mkCartItem (mkProduct "plug" 5%float) (QtyNumber 0%float) ].

(** The state a run from [initial api] ends in ([initial api] itself when the
    run cannot happen). *)
Definition state_after (props : Props) (api : bool) (trace : list Action) : State :=
  match run props (initial api) trace with
  | Some st => st
  | None => initial api
  end.

(** The vendor API is on the page, the readiness check answers yes and the
    vendor's button 100 is mounted. *)
Definition trace_ready : list Action :=
  [Mounted; ScriptLoaded 0 false; IsReadyResolved 2 true (Some 100)].

Definition ready_state : State := state_after defaultProps true trace_ready.

(** A configuration that does not relay to the backend. *)
Definition noRelayProps : Props :=
  {| amount := "10.00";
     currency := "USD";
     merchantName := "Example Merchant";
     environment := TEST;
     gateway := "example";
     gatewayMerchantId := "BCR2DN5T5CC5PV3C";
     processEndpoint := "/process-payment";
     autoSendToServer := false |}.

(** The readiness check is in flight (promise 2). *)
Definition trace_checking : list Action := [Mounted; ScriptLoaded 0 false].

Definition checking_state : State := state_after defaultProps true trace_checking.

(** The button was clicked once: [loadPaymentData] is in flight (promise 3). *)
Definition trace_clicked : list Action := trace_ready ++ [Clicked].

Definition clicked_state (props : Props) : State := state_after props true trace_clicked.

(** The vendor resolved the payment with "token" and the relay is in flight
    (promise 4). *)
Definition trace_relaying : list Action :=
  trace_clicked ++ [PaymentResolved 3 "token"].

Definition relaying_state : State := state_after defaultProps true trace_relaying.

(** ** Properties the description asks for, as statements about runs *)

(** The actions that settle a promise (neither a hook nor a click). *)
Definition settles (a : Action) : bool :=
  match a with
  | Mounted | Clicked | BeforeUnmount | Unmounted => false
  | _ => true
  end.

(** Results that arrive after teardown are discarded: once the
    [onBeforeUnmount] hook has run, promises settling later emit nothing and
    leave Status alone. *)
Definition teardown_discards_results (props : Props) : Prop :=
  forall api before after st_t st',
    run props (initial api) (before ++ [BeforeUnmount]) = Some st_t ->
    forallb settles after = true ->
    run props st_t after = Some st' ->
    emitted st' = emitted st_t /\ status st' = status st_t.

(** Repeat submissions are held back: at most one payment flow is ever
    outstanding. *)
Definition one_flow_at_a_time (props : Props) : Prop :=
  forall api trace st,
    run props (initial api) trace = Some st ->
    outstandingFlows st <= 1.

(** [res.ok]: the response's status is in the range 200-299. *)
Definition resp_ok (res : Response) : bool :=
  ((200 <=? resp_status res)%nat && (resp_status res <=? 299)%nat)%bool.

(** A relay whose response is not 2xx, or whose body does not parse, is
    reported: an error event follows and Status is not the success message. *)
Definition relay_failures_reported (props : Props) : Prop :=
  forall api trace st id paymentData rest res body st',
    run props (initial api) trace = Some st ->
    take_pending id (pending st) = Some (AwaitFetch paymentData, rest) ->
    resp_ok res = false \/ body = None ->
    run props st [FetchResolved id res; JsonSettled (fresh st) body] = Some st' ->
    (exists err, emitted st' = emitted st ++ [EvError err])
    /\ status st' <> "Server processed payment.".

(** Promise identities are handed out in increasing order. *)
Definition pending_fresh (st : State) : Prop :=
  Forall (fun e => fst e < fresh st) (pending st).

(** ** Counting along a run *)

Definition is_Mounted (a : Action) : bool :=
  match a with
  | Mounted => true
  | _ => false
  end.

(** How often the [onMounted] hook runs in a trace. *)
Definition mounts (trace : list Action) : nat :=
  length (filter is_Mounted trace).

(** The promises [initGooglePay] waits for. *)
Definition init_promise (p : Pending) : bool :=
  match p with
  | AwaitScript _ | AwaitIsReady => true
  | _ => false
  end.

(** The runs of [initGooglePay] that have not finished. *)
Definition initFlows (st : State) : nat :=
  length (filter (fun e => init_promise (snd e)) (pending st)).

(** The payloads of the [success] events, oldest first. *)
Fixpoint successes (events : list Event) : list PaymentData :=
  match events with
  | [] => []
  | EvSuccess payload :: events' => payload :: successes events'
  | _ :: events' => successes events'
  end.

(** The number of [ready] events. *)
Fixpoint readyCount (events : list Event) : nat :=
  match events with
  | [] => 0
  | EvReady _ :: events' => S (readyCount events')
  | _ :: events' => readyCount events'
  end.

(** The Status messages the four [catch] handlers set. *)
Definition failureMessages : list string :=
  [ "Could not load Google Pay script.";
    "Error checking Google Pay availability.";
    "Payment cancelled or failed; check console.";
    "Error sending token to server; see console." ].

(** The Status a handler sets next to the event it emits. *)
Definition status_fits (e : Event) (st : State) : Prop :=
  match e with
  | EvSuccess _ => status st = "Payment authorized. Processing..."
  | EvReady true =>
      status st = "Google Pay is available. Click the button to pay."
      /\ loading st = false
  | EvReady false =>
      status st = "Google Pay is not available in this environment/profile."
      /\ loading st = false
  | EvError _ => In (status st) failureMessages
  end.

(** Ownership of the script element: [document.head] holds nothing of the
    component, or exactly the element [scriptEl] points to. *)
Definition script_inv (st : State) : Prop :=
  head st = [] \/ exists el, head st = [el] /\ scriptEl st = Some el.

(** The readiness check is in flight and the adapter was torn down
    meanwhile. *)
Definition trace_torn_checking : list Action := trace_checking ++ [BeforeUnmount].

Definition torn_checking_state : State :=
  state_after defaultProps true trace_torn_checking.

(** ** Second component: the payment request of the Stripe widget *)

(** The options passed to [stripe.paymentRequest]. *)
Record PaymentRequestOptions : Type := mkPaymentRequestOptions {
  pr_country : string;
  pr_currency : string;
  pr_total_label : string;
  pr_total_amount : Number;
  pr_requestPayerName : bool;
  pr_requestPayerEmail : bool
}.

(** [totalLabel]: 'Warenkorb' for the empty cart, else the first product's
    name, followed by ' + weitere' when the cart has more than one item. *)
Definition totalLabel (cart : list CartItem) : string :=
  match cart with
  | [] => "Warenkorb"
  | item :: _ =>
      String.append (name (product item))
        (if (1 <? length cart)%nat then " + weitere" else "")
  end.

(** The argument of [stripe.paymentRequest] for the cart as it is now. *)
Definition paymentRequestOptions (cart : list CartItem) : PaymentRequestOptions :=
  {| pr_country := "DE";
     pr_currency := "eur";
     pr_total_label := totalLabel cart;
     pr_total_amount := totalAmount cart;
     pr_requestPayerName := true;
     pr_requestPayerEmail := true |}.

(** The promise the [onMounted] hook of the widget waits for. *)
Inductive StripeWait : Type :=
| WaitLoadStripe        (* [await loadStripe(stripePublicKey)] *)
| WaitCanMakePayment    (* [await paymentRequest.canMakePayment()] *).

Record StripeState : Type := mkStripeState {
  cart : list CartItem;                          (* cart.value *)
  googlePayAvailable : bool;                     (* googlePayAvailable.value *)
  paymentRequest : option PaymentRequestOptions; (* the request, once created *)
  prButtonMounted : bool;          (* prButton.mount('#payment-request-button') ran *)
  handlerRegistered : bool;        (* paymentRequest.on('paymentmethod', ...) ran *)
  completed : list string;         (* arguments of ev.complete, oldest first *)
  waiting : list StripeWait        (* hook runs suspended, oldest first *)
}.

(** What can happen to the widget. *)
Inductive StripeAction : Type :=
| StripeMounted                          (* Vue runs the onMounted hook *)
| StripeLoaded                           (* loadStripe resolves with a Stripe object *)
| CanMakePaymentResolved (canPay : bool) (* truthiness of what canMakePayment gives *)
| CartChanged (c : list CartItem)        (* the stored cart changes *)
| PaymentMethodEvent                     (* Stripe fires 'paymentmethod' *).

(** Takes the oldest suspended hook run that waits for [w]. *)
Fixpoint take_wait (w : StripeWait) (ws : list StripeWait) : option (list StripeWait) :=
  match ws with
  | [] => None
  | v :: ws' =>
      match w, v with
      | WaitLoadStripe, WaitLoadStripe
      | WaitCanMakePayment, WaitCanMakePayment => Some ws'
      | _, _ =>
          match take_wait w ws' with
          | Some rest => Some (v :: rest)
          | None => None
          end
      end
  end.

(** One turn of the widget's event loop. *)
Definition stripe_step (st : StripeState) (a : StripeAction) : option StripeState :=
  match a with
  | StripeMounted =>
      Some (mkStripeState (cart st) (googlePayAvailable st) (paymentRequest st)
              (prButtonMounted st) (handlerRegistered st) (completed st)
              (waiting st ++ [WaitLoadStripe]))
  | StripeLoaded =>
      match take_wait WaitLoadStripe (waiting st) with
      | Some rest =>
          Some (mkStripeState (cart st) (googlePayAvailable st)
                  (Some (paymentRequestOptions (cart st)))
                  (prButtonMounted st) (handlerRegistered st) (completed st)
                  (rest ++ [WaitCanMakePayment]))
      | None => None
      end
  | CanMakePaymentResolved canPay =>
      match take_wait WaitCanMakePayment (waiting st) with
      | Some rest =>
          Some (mkStripeState (cart st) canPay (paymentRequest st)
                  (if canPay then true else prButtonMounted st)
                  true (completed st) rest)
      | None => None
      end
  | CartChanged c =>
      Some (mkStripeState c (googlePayAvailable st) (paymentRequest st)
              (prButtonMounted st) (handlerRegistered st) (completed st)
              (waiting st))
  | PaymentMethodEvent =>
      if handlerRegistered st then
        Some (mkStripeState (cart st) (googlePayAvailable st) (paymentRequest st)
                (prButtonMounted st) (handlerRegistered st)
                (completed st ++ ["success"]) (waiting st))
      else Some st
  end.

Fixpoint stripe_run (st : StripeState) (trace : list StripeAction) : option StripeState :=
  match trace with
  | [] => Some st
  | a :: trace' =>
      match stripe_step st a with
      | Some st' => stripe_run st' trace'
      | None => None
      end
  end.

(** The widget after setup, before its [onMounted] hook, with the stored cart. *)
Definition stripe_initial (c : list CartItem) : StripeState :=
  {| cart := c; googlePayAvailable := false; paymentRequest := None;
     prButtonMounted := false; handlerRegistered := false; completed := [];
     waiting := [] |}.

Definition is_StripeMounted (a : StripeAction) : bool :=
  match a with
  | StripeMounted => true
  | _ => false
  end.

(** How often the widget's [onMounted] hook runs in a trace. *)
Definition stripe_mounts (trace : list StripeAction) : nat :=
  length (filter is_StripeMounted trace).

(** The hook runs that still wait for [loadStripe]. *)
Definition loadWaits (ws : list StripeWait) : nat :=
  length (filter (fun w => match w with WaitLoadStripe => true | _ => false end) ws).

(** A cart that is stored while the widget is on the page. *)
Definition later_cart : list CartItem :=
  [ mkCartItem (mkProduct "desk" 250%float) (QtyNumber 1%float) ].

(** * Properties *)

(** ** Frame facts of the state setters and the DOM operations *)

Lemma contains_self (n : Node) : contains [n] n = true.
Proof. unfold contains. simpl. now rewrite Nat.eqb_refl. Qed.

Lemma removeChild_self (n : Node) : removeChild [n] n = [].
Proof. unfold removeChild. simpl. now rewrite Nat.eqb_refl. Qed.

Lemma removeChild_incl (kids : list Node) (n : Node) : incl (removeChild kids n) kids.
Proof. unfold removeChild. intros k Hk. now apply filter_In in Hk. Qed.

(** Detaching under the ownership invariant empties the container. *)
Lemma detachButton_container (st : State) :
  button_inv st ->
  buttonContainer (detachButton st)
  = match buttonContainer st with Some _ => Some [] | None => None end.
Proof.
  unfold button_inv, detachButton. intros Hinv.
  destruct (buttonContainer st) as [kids|] eqn:Hc.
  - destruct Hinv as [-> | [b [-> Hb]]].
    + destruct (buttonElement st); simpl; now rewrite ?Hc.
    + rewrite Hb, contains_self, removeChild_self. reflexivity.
  - destruct (buttonElement st); simpl; now rewrite ?Hc.
Qed.

Lemma detachButton_client (st : State) :
  paymentsClient (detachButton st) = paymentsClient st.
Proof.
  unfold detachButton.
  destruct (buttonElement st), (buttonContainer st) as [kids|]; try reflexivity.
  now destruct (contains kids _).
Qed.

(** One call of [createAndAddButton] on an adapter that has a client and a
    container: the container holds what [createButton] returned, and nothing
    else. *)
Lemma createAndAddButton_mounts (created : option Node) (st : State) :
  button_inv st ->
  paymentsClient st <> None ->
  buttonContainer st <> None ->
  let st' := createAndAddButton created st in
  buttonContainer st' = Some (match created with Some b => [b] | None => [] end)
  /\ buttonElement st' = created
  /\ paymentsClient st' = paymentsClient st.
Proof.
  intros Hinv Hc Hk. unfold createAndAddButton.
  destruct (paymentsClient st) as [c|] eqn:Ec; [|congruence].
  pose proof (detachButton_container st Hinv) as Hd.
  pose proof (detachButton_client st) as Hdc.
  destruct (buttonContainer st) as [kids|]; [|congruence].
  cbn [set_buttonElement buttonContainer buttonElement paymentsClient].
  rewrite Hd. destruct created as [b|]; cbn; rewrite ?Hdc, ?Ec; auto.
Qed.

Lemma createAndAddButton_inv (created : option Node) (st : State) :
  button_inv st -> button_inv (createAndAddButton created st).
Proof.
  intros Hinv.
  destruct (paymentsClient st) as [c|] eqn:Ec.
  - destruct (buttonContainer st) as [kids|] eqn:Ek.
    + destruct (createAndAddButton_mounts created st Hinv) as (Hk & Hb & _);
        try congruence.
      unfold button_inv. rewrite Hk. destruct created as [b|]; eauto.
    + unfold button_inv, createAndAddButton, detachButton. rewrite Ec, Ek.
      destruct (buttonElement st); cbn; rewrite Ek; cbn; rewrite ?Ek; exact I.
  - unfold createAndAddButton. now rewrite Ec.
Qed.

Lemma detachButton_inv (st : State) : button_inv st -> button_inv (detachButton st).
Proof.
  intros Hinv. unfold button_inv. rewrite (detachButton_container st Hinv).
  destruct (buttonContainer st); auto.
Qed.

(** ** Case analysis of one turn of the event loop *)

(** Splits [H : step props st a = Some st'] into one goal per action and per
    continuation that can run, with [st'] replaced by the segment's result. *)
Ltac step_inv H :=
  match type of H with
  | step _ ?st ?a = Some _ =>
      destruct a; cbn [step] in H;
      try match type of H with
          | context [take_pending ?i (pending st)] =>
              let p := fresh "p" in
              let rest := fresh "rest" in
              let Htp := fresh "Htp" in
              destruct (take_pending i (pending st)) as [[p rest]|] eqn:Htp;
              [destruct p as [[|]| | | |] | ]; cbn in H; try discriminate H
          end;
      injection H as H; subst
  end.

(** Unfolds the segments down to the setters. *)
Ltac segments :=
  unfold initGooglePay, initGooglePay_scriptRejected, initGooglePay_checkFailed,
    initGooglePay_scriptResolved, initGooglePay_readyResolved,
    onGooglePayButtonClicked, loadPaymentData_rejected, handlePaymentSuccess,
    handlePaymentSuccess_fetchResolved, handlePaymentSuccess_bodyRead,
    handlePaymentSuccess_fetchRejected, loadGooglePayScript, initPaymentsClient,
    await, emit, updateStatus in *.

Lemma onBeforeUnmount_button_inv (st : State) :
  button_inv st -> button_inv (onBeforeUnmount st).
Proof.
  intros Hinv. unfold onBeforeUnmount. apply detachButton_inv.
  destruct (scriptEl st) as [el|]; [destruct (contains (head st) el)|]; exact Hinv.
Qed.

(** Every turn keeps the ownership invariant. *)
Lemma step_button_inv (props : Props) (st st' : State) (a : Action) :
  button_inv st -> step props st a = Some st' -> button_inv st'.
Proof.
  intros Hinv H. step_inv H; segments;
    try (apply onBeforeUnmount_button_inv; exact Hinv);
    try exact I;
    repeat match goal with
      | |- context [if ?b then _ else _] => destruct b
      | |- context [match paymentsClient ?s with _ => _ end] =>
          destruct (paymentsClient s)
      end;
    try exact Hinv;
    try (apply (createAndAddButton_inv _ _); exact Hinv).
Qed.

Lemma run_button_inv (props : Props) (trace : list Action) :
  forall st st', button_inv st -> run props st trace = Some st' -> button_inv st'.
Proof.
  induction trace as [|a trace IH]; intros st st' Hinv H; simpl in H.
  - now injection H as <-.
  - destruct (step props st a) as [st1|] eqn:Hs; [|discriminate].
    eapply IH; [|exact H]. eapply step_button_inv; eauto.
Qed.

Lemma reachable_button_inv (props : Props) (st : State) :
  reachable props st -> button_inv st.
Proof.
  intros (api & trace & H). eapply run_button_inv; [|exact H].
  unfold button_inv, initial. simpl. now left.
Qed.

Lemma mountButton_times_snoc (bs : list (option Node)) (c : option Node) (st : State) :
  mountButton_times (bs ++ [c]) st = createAndAddButton c (mountButton_times bs st).
Proof. unfold mountButton_times. now rewrite fold_left_app. Qed.

(** Repeated mounting keeps the invariant, the client and the container. *)
Lemma mountButton_times_keeps (bs : list (option Node)) :
  forall st,
    button_inv st -> paymentsClient st <> None -> buttonContainer st <> None ->
    button_inv (mountButton_times bs st)
    /\ paymentsClient (mountButton_times bs st) <> None
    /\ buttonContainer (mountButton_times bs st) <> None.
Proof.
  induction bs as [|c bs IH]; intros st Hinv Hc Hk; [now auto|].
  destruct (createAndAddButton_mounts c st Hinv Hc Hk) as (Hk' & _ & Hc').
  apply IH.
  - now apply createAndAddButton_inv.
  - simpl. congruence.
  - simpl. congruence.
Qed.

Lemma button_inv_at_most_one (st : State) :
  button_inv st -> length (attachedButtons st) <= 1.
Proof.
  unfold button_inv, attachedButtons.
  destruct (buttonContainer st) as [kids|]; [|simpl; lia].
  intros [-> | (b & -> & _)]; simpl; lia.
Qed.

(** ** Mounting the button *)

Lemma mountButton_times_inv (bs : list (option Node)) :
  forall st, button_inv st -> button_inv (mountButton_times bs st).
Proof.
  induction bs as [|c bs IH]; intros st Hinv; [exact Hinv|].
  apply IH. now apply createAndAddButton_inv.
Qed.

(** C1.  In every state the component can reach, and after any number of
    further calls of [createAndAddButton], at most one ButtonElement is
    attached to the button container.  On an initialised adapter (one with a
    payments client and a button container), when the last of the calls got an
    element from [createButton] (so there was at least one call), exactly that
    one element is attached and owned: buttons do not accumulate. *)
Theorem C1_mountButton_leaves_one_button
    (props : Props) (st : State) (bs : list (option Node)) :
  reachable props st ->
  length (attachedButtons st) <= 1
  /\ length (attachedButtons (mountButton_times bs st)) <= 1
  /\ (paymentsClient st <> None ->
      buttonContainer st <> None ->
      forall b, last bs None = Some b ->
        attachedButtons (mountButton_times bs st) = [b]
        /\ buttonElement (mountButton_times bs st) = Some b).
Proof.
  intros Hreach. pose proof (reachable_button_inv props st Hreach) as Hinv.
  split; [now apply button_inv_at_most_one|]. split.
  - apply button_inv_at_most_one. now apply mountButton_times_inv.
  - intros Hc Hk b Hlast. destruct (exists_last (l := bs)) as (bs' & c & ->).
    { intros ->. discriminate Hlast. }
    rewrite last_last in Hlast. subst c. rewrite mountButton_times_snoc.
    destruct (mountButton_times_keeps bs' st Hinv Hc Hk) as (Hinv' & Hc' & Hk').
    destruct (createAndAddButton_mounts (Some b) _ Hinv' Hc' Hk') as (E1 & E2 & _).
    unfold attachedButtons. now rewrite E1, E2.
Qed.

(** Three calls on the adapter of [ready_state], whose button 100 is mounted:
    only the third call's button stays. *)
Lemma C1_mountButton_witness :
  attachedButtons (mountButton_times [Some 101; Some 102; Some 103] ready_state) = [103]
  /\ buttonElement (mountButton_times [Some 101; Some 102; Some 103] ready_state) = Some 103.
Proof.
  assert (Hreach : reachable defaultProps ready_state).
  { exists true, trace_ready. vm_compute. reflexivity. }
  apply (proj2 (proj2 (C1_mountButton_leaves_one_button defaultProps ready_state
                         [Some 101; Some 102; Some 103] Hreach))).
  - vm_compute. discriminate.
  - vm_compute. discriminate.
  - vm_compute. reflexivity.
Defined.

(** ** What the payment-data request carries *)

(** C2.  Whatever the configured amount and currency, the request
    [getPaymentDataRequest()] builds has
    [transactionInfo = { totalPriceStatus: 'FINAL', totalPrice: amount,
    currencyCode: currency }]; a click on an adapter with a client passes
    exactly this request to [loadPaymentData]; and with amount "10.00" and
    currency "USD" the field is
    [{ totalPriceStatus: 'FINAL', totalPrice: '10.00', currencyCode: 'USD' }]. *)
Theorem C2_transactionInfo_of_request :
  (forall props : Props,
      transactionInfo (getPaymentDataRequest props None None)
      = {| totalPriceStatus := "FINAL";
           totalPrice := amount props;
           currencyCode := currency props |})
  /\ (forall (props : Props) (st : State),
        paymentsClient st <> None ->
        exists st',
          step props st Clicked = Some st'
          /\ loadCalls st' = loadCalls st ++ [getPaymentDataRequest props None None]
          /\ pending st'
             = pending st
               ++ [(fresh st, AwaitLoadPaymentData (getPaymentDataRequest props None None))])
  /\ transactionInfo (getPaymentDataRequest noRelayProps None None)
     = {| totalPriceStatus := "FINAL"; totalPrice := "10.00"; currencyCode := "USD" |}.
Proof.
  split; [reflexivity|]. split; [|reflexivity].
  intros props st Hc. cbn [step]. unfold onGooglePayButtonClicked.
  destruct (paymentsClient st) as [c|]; [|congruence].
  eexists. split; [reflexivity|]. split; reflexivity.
Qed.

(** On [ready_state] a click issues the request with the configured amount and
    currency. *)
Lemma C2_transactionInfo_witness :
  exists st',
    step noRelayProps ready_state Clicked = Some st'
    /\ loadCalls st' = loadCalls ready_state ++ [getPaymentDataRequest noRelayProps None None]
    /\ pending st'
       = pending ready_state
         ++ [(fresh ready_state,
              AwaitLoadPaymentData (getPaymentDataRequest noRelayProps None None))].
Proof.
  apply (proj1 (proj2 C2_transactionInfo_of_request) noRelayProps ready_state).
  vm_compute. discriminate.
Defined.

(** ** A click without a client *)

(** C9.  When the click handler runs while [paymentsClient] is null, the only
    effect is that Status becomes 'Payments client not initialized.': no
    request is built or passed to [loadPaymentData], no promise is left in
    flight, nothing is emitted and nothing is posted. *)
Theorem C9_click_without_client (props : Props) (st : State) :
  paymentsClient st = None ->
  step props st Clicked = Some (set_status "Payments client not initialized." st)
  /\ forall st', step props st Clicked = Some st' ->
       status st' = "Payments client not initialized."
       /\ loadCalls st' = loadCalls st
       /\ pending st' = pending st
       /\ emitted st' = emitted st
       /\ posts st' = posts st.
Proof.
  intros Hc. cbn [step]. unfold onGooglePayButtonClicked. rewrite Hc.
  split; [reflexivity|]. intros st' [= <-]. repeat split.
Qed.

(** Before the [onMounted] hook has built a client, a click only sets Status. *)
Lemma C9_click_without_client_witness :
  step defaultProps (initial true) Clicked
  = Some (set_status "Payments client not initialized." (initial true)).
Proof.
  apply (C9_click_without_client defaultProps (initial true)). reflexivity.
Defined.

(** ** Frames: what the button operations leave alone *)

(** Case analysis on every test a segment makes, innermost test first. *)
Ltac break_tests :=
  repeat match goal with
    | |- context [match ?x with _ => _ end] =>
        lazymatch x with
        | context [match _ with _ => _ end] => fail
        | _ => destruct x eqn:?; cbn
        end
    end.

Lemma detachButton_frame (st : State) :
  status (detachButton st) = status st
  /\ emitted (detachButton st) = emitted st
  /\ posts (detachButton st) = posts st
  /\ loadCalls (detachButton st) = loadCalls st
  /\ pending (detachButton st) = pending st
  /\ injected (detachButton st) = injected st
  /\ googleApi (detachButton st) = googleApi st
  /\ head (detachButton st) = head st
  /\ fresh (detachButton st) = fresh st.
Proof. unfold detachButton. break_tests; repeat split. Qed.

Lemma createAndAddButton_frame (created : option Node) (st : State) :
  status (createAndAddButton created st) = status st
  /\ emitted (createAndAddButton created st) = emitted st
  /\ posts (createAndAddButton created st) = posts st
  /\ loadCalls (createAndAddButton created st) = loadCalls st
  /\ pending (createAndAddButton created st) = pending st
  /\ injected (createAndAddButton created st) = injected st
  /\ googleApi (createAndAddButton created st) = googleApi st
  /\ head (createAndAddButton created st) = head st
  /\ fresh (createAndAddButton created st) = fresh st.
Proof.
  unfold createAndAddButton.
  destruct (detachButton_frame st) as (E1 & E2 & E3 & E4 & E5 & E6 & E7 & E8 & E9).
  break_tests; cbn; repeat split; assumption.
Qed.

Lemma onBeforeUnmount_frame (st : State) :
  status (onBeforeUnmount st) = status st
  /\ emitted (onBeforeUnmount st) = emitted st
  /\ posts (onBeforeUnmount st) = posts st
  /\ loadCalls (onBeforeUnmount st) = loadCalls st
  /\ pending (onBeforeUnmount st) = pending st
  /\ injected (onBeforeUnmount st) = injected st
  /\ googleApi (onBeforeUnmount st) = googleApi st
  /\ incl (head (onBeforeUnmount st)) (head st)
  /\ fresh (onBeforeUnmount st) = fresh st.
Proof.
  unfold onBeforeUnmount.
  match goal with
  | |- context [detachButton ?s] =>
      destruct (detachButton_frame s) as (E1 & E2 & E3 & E4 & E5 & E6 & E7 & E8 & E9)
  end.
  rewrite E1, E2, E3, E4, E5, E6, E7, E8, E9.
  destruct (scriptEl st) as [el|]; [destruct (contains (head st) el)|]; cbn;
    repeat split; auto using incl_refl, removeChild_incl.
Qed.

(** ** The vendor script *)

(** A turn on a page that has the vendor API injects nothing. *)
Lemma step_no_injection (props : Props) (st st' : State) (a : Action) :
  googleApi st = true ->
  step props st a = Some st' ->
  googleApi st' = true /\ injected st' = injected st /\ incl (head st') (head st).
Proof.
  intros Hapi H.
  step_inv H; segments; cbn;
    try (destruct (onBeforeUnmount_frame st) as (_ & _ & _ & _ & _ & E6 & E7 & E8 & _);
         rewrite E6, E7; auto);
    rewrite ?Hapi; cbn;
    try match goal with
        | |- context [createAndAddButton ?c ?s] =>
            destruct (createAndAddButton_frame c s) as (_ & _ & _ & _ & _ & E6 & E7 & E8 & _);
            destruct result; cbn; rewrite ?E6, ?E7, ?E8; cbn
        end;
    try destruct (paymentsClient st); try destruct (autoSendToServer props); cbn;
    auto using incl_refl.
Qed.

Lemma run_no_injection (props : Props) (trace : list Action) :
  forall st st',
    googleApi st = true ->
    run props st trace = Some st' ->
    googleApi st' = true /\ injected st' = injected st /\ incl (head st') (head st).
Proof.
  induction trace as [|a trace IH]; intros st st' Hapi H; simpl in H.
  - injection H as <-. auto using incl_refl.
  - destruct (step props st a) as [st1|] eqn:Hs; [|discriminate].
    destruct (step_no_injection props st st1 a Hapi Hs) as (A1 & A2 & A3).
    destruct (IH st1 st' A1 H) as (B1 & B2 & B3).
    repeat split; [assumption|congruence|eauto using incl_tran].
Qed.

(** The [onMounted] hook can always run, and any number of times. *)
Lemma run_Mounted_total (props : Props) (n : nat) :
  forall st, exists st', run props st (repeat Mounted n) = Some st'.
Proof.
  induction n as [|n IH]; intros st; simpl; [now exists st|]. apply IH.
Qed.

Lemma initGooglePay_script_present (st : State) :
  googleApi st = true -> initGooglePay st = await (AwaitScript false) st.
Proof. intros H. unfold initGooglePay, loadGooglePayScript. now rewrite H. Qed.

Lemma run_Mounted_script_present (props : Props) (n : nat) :
  forall st,
    googleApi st = true ->
    exists st',
      run props st (repeat Mounted n) = Some st'
      /\ injected st' = injected st
      /\ head st' = head st
      /\ scriptEl st' = scriptEl st.
Proof.
  induction n as [|n IH]; intros st Hapi; simpl.
  - exists st. auto.
  - destruct (IH (initGooglePay st)) as (st' & Hrun & E1 & E2 & E3).
    + now rewrite initGooglePay_script_present.
    + exists st'. rewrite initGooglePay_script_present in E1, E2, E3 by assumption.
      auto.
Qed.

(** C8.  On a page where the vendor payments API object exists, [initGooglePay]
    can be called any number of times and injects no script element: the log of
    injections, [document.head] and [scriptEl] stay as they are.  The same
    holds along every run of the component from such a page, whatever else
    happens in between ([document.head] can only lose the element teardown
    removes). *)
Theorem C8_no_injection_when_script_present (props : Props) (st : State) :
  googleApi st = true ->
  (forall n, exists st',
      run props st (repeat Mounted n) = Some st'
      /\ injected st' = injected st
      /\ head st' = head st
      /\ scriptEl st' = scriptEl st)
  /\ (forall trace st',
        run props st trace = Some st' ->
        injected st' = injected st /\ incl (head st') (head st)).
Proof.
  intros Hapi. split.
  - intros n. now apply run_Mounted_script_present.
  - intros trace st' H.
    destruct (run_no_injection props trace st st' Hapi H) as (_ & E & I). auto.
Qed.

(** Five initialisations of a page that has the API: nothing is injected. *)
Lemma C8_no_injection_witness :
  exists st',
    run defaultProps (initial true) (repeat Mounted 5) = Some st'
    /\ injected st' = injected (initial true)
    /\ head st' = head (initial true)
    /\ scriptEl st' = scriptEl (initial true).
Proof.
  apply (proj1 (C8_no_injection_when_script_present defaultProps (initial true)
                  eq_refl) 5).
Defined.

(** ** Relaying is optional *)

(** Without auto-relay no turn calls [fetch]. *)
Lemma step_no_post (props : Props) (st st' : State) (a : Action) :
  autoSendToServer props = false ->
  step props st a = Some st' ->
  posts st' = posts st.
Proof.
  intros Hoff H.
  step_inv H; segments; cbn; rewrite ?Hoff; cbn;
    try (now destruct (onBeforeUnmount_frame st) as (_ & _ & E & _));
    try match goal with
        | |- context [createAndAddButton ?c ?s] =>
            destruct (createAndAddButton_frame c s) as (_ & _ & E & _);
            destruct result; cbn; rewrite ?E; cbn
        end;
    break_tests; reflexivity.
Qed.

Lemma run_no_post (props : Props) (trace : list Action) :
  forall st st',
    autoSendToServer props = false ->
    run props st trace = Some st' ->
    posts st' = posts st.
Proof.
  induction trace as [|a trace IH]; intros st st' Hoff H; simpl in H.
  - now injection H as <-.
  - destruct (step props st a) as [st1|] eqn:Hs; [|discriminate].
    rewrite (IH st1 st' Hoff H). eapply step_no_post; eauto.
Qed.

(** C6.  With [autoSendToServer] false, when the vendor resolves a payment
    that is in flight the handler emits [success] with the payment data and
    stops there: Status is 'Payment authorized. Processing...', [fetch] is not
    called and no relay is left in flight.  Along every run of such an
    adapter [fetch] is never called. *)
Theorem C6_no_post_without_autoSend (props : Props) (st : State) :
  autoSendToServer props = false ->
  (forall id request rest paymentData,
      take_pending id (pending st) = Some (AwaitLoadPaymentData request, rest) ->
      exists st',
        step props st (PaymentResolved id paymentData) = Some st'
        /\ emitted st' = emitted st ++ [EvSuccess paymentData]
        /\ status st' = "Payment authorized. Processing..."
        /\ posts st' = posts st
        /\ pending st' = rest)
  /\ (forall trace st', run props st trace = Some st' -> posts st' = posts st).
Proof.
  intros Hoff. split.
  - intros id request rest paymentData Htp. cbn [step]. rewrite Htp.
    unfold handlePaymentSuccess. rewrite Hoff. eexists. split; [reflexivity|].
    repeat split.
  - intros trace st' H. eapply run_no_post; eauto.
Qed.

(** A payment resolved on an adapter that does not relay. *)
Lemma C6_no_post_witness :
  exists st',
    step noRelayProps (clicked_state noRelayProps) (PaymentResolved 3 "token") = Some st'
    /\ emitted st' = emitted (clicked_state noRelayProps) ++ [EvSuccess "token"]
    /\ status st' = "Payment authorized. Processing..."
    /\ posts st' = posts (clicked_state noRelayProps)
    /\ pending st' = [].
Proof.
  apply (proj1 (C6_no_post_without_autoSend noRelayProps (clicked_state noRelayProps)
                  eq_refl)
           3 (getPaymentDataRequest noRelayProps None None)).
  vm_compute. reflexivity.
Defined.

(** ** A negative readiness check *)

Lemma detachButton_no_button (st : State) :
  buttonElement st = None -> detachButton st = st.
Proof. intros H. unfold detachButton. now rewrite H. Qed.

(** A turn that is not a positive readiness answer mounts nothing. *)
Lemma step_no_button (props : Props) (st st' : State) (a : Action) :
  no_button st ->
  not_positive_ready a = true ->
  step props st a = Some st' ->
  no_button st'.
Proof.
  unfold no_button, attachedButtons. intros [Hk Hb] Hneg H.
  step_inv H; segments; cbn;
    try (unfold onBeforeUnmount; rewrite detachButton_no_button;
         [|now break_tests]);
    try (destruct result; [discriminate Hneg|]);
    break_tests; cbn in *;
    try match goal with
        | E : buttonContainer st = _ |- _ => rewrite E in Hk
        end;
    auto.
Qed.

Lemma run_no_button (props : Props) (trace : list Action) :
  forall st st',
    no_button st ->
    forallb not_positive_ready trace = true ->
    run props st trace = Some st' ->
    no_button st'.
Proof.
  induction trace as [|a trace IH]; intros st st' Hno Hneg H; simpl in H.
  - now injection H as <-.
  - simpl in Hneg. apply andb_prop in Hneg as [Ha Hneg].
    destruct (step props st a) as [st1|] eqn:Hs; [|discriminate].
    eapply IH; [|exact Hneg|exact H]. eapply step_no_button; eauto.
Qed.

(** C7.  When the readiness check that is in flight resolves with a negative
    result, the continuation of [initGooglePay] sets Status to the
    'not available' message, emits [ready(false)], clears [loading] and leaves
    the button container and [buttonElement] as they were; and along every
    run of the component in which no readiness check resolves positive, no
    ButtonElement is ever attached or held. *)
Theorem C7_negative_readiness_mounts_no_button (props : Props) :
  (forall st id rest created,
      take_pending id (pending st) = Some (AwaitIsReady, rest) ->
      exists st',
        step props st (IsReadyResolved id false created) = Some st'
        /\ status st' = "Google Pay is not available in this environment/profile."
        /\ emitted st' = emitted st ++ [EvReady false]
        /\ loading st' = false
        /\ buttonContainer st' = buttonContainer st
        /\ buttonElement st' = buttonElement st)
  /\ (forall api trace st',
        forallb not_positive_ready trace = true ->
        run props (initial api) trace = Some st' ->
        attachedButtons st' = [] /\ buttonElement st' = None).
Proof.
  split.
  - intros st id rest created Htp. cbn [step]. rewrite Htp.
    eexists. split; [reflexivity|]. repeat split.
  - intros api trace st' Hneg H.
    apply (run_no_button props trace (initial api) st'); auto.
    split; reflexivity.
Qed.

(** The readiness check of [checking_state] answers no, even with a vendor
    that would hand out button 100: nothing is mounted; and the whole run,
    followed by a click, holds no button. *)
Lemma C7_negative_readiness_witness :
  (exists st',
      step defaultProps checking_state (IsReadyResolved 2 false (Some 100)) = Some st'
      /\ status st' = "Google Pay is not available in this environment/profile."
      /\ emitted st' = emitted checking_state ++ [EvReady false]
      /\ loading st' = false
      /\ buttonContainer st' = buttonContainer checking_state
      /\ buttonElement st' = buttonElement checking_state)
  /\ attachedButtons
       (state_after defaultProps true
          (trace_checking ++ [IsReadyResolved 2 false (Some 100); Clicked])) = []
  /\ buttonElement
       (state_after defaultProps true
          (trace_checking ++ [IsReadyResolved 2 false (Some 100); Clicked])) = None.
Proof.
  split.
  - apply (proj1 (C7_negative_readiness_mounts_no_button defaultProps)
             checking_state 2 []).
    vm_compute. reflexivity.
  - apply (proj2 (C7_negative_readiness_mounts_no_button defaultProps) true
             (trace_checking ++ [IsReadyResolved 2 false (Some 100); Clicked])).
    + vm_compute. reflexivity.
    + vm_compute. reflexivity.
Defined.

(** ** Clicks while a payment flow is in progress *)

Lemma outstandingFlows_await (p : Pending) (st : State) :
  outstandingFlows (await p st)
  = outstandingFlows st
    + match p with AwaitLoadPaymentData _ => 1 | _ => 0 end.
Proof.
  unfold outstandingFlows, await. cbn. rewrite filter_app, length_app.
  destruct p; reflexivity.
Qed.

(** A click on an adapter with a client starts a payment flow, whatever is
    outstanding. *)
Lemma click_starts_flow (props : Props) (st : State) :
  paymentsClient st <> None ->
  let st' := onGooglePayButtonClicked props st in
  paymentsClient st' = paymentsClient st
  /\ outstandingFlows st' = outstandingFlows st + 1
  /\ loadCalls st' = loadCalls st ++ [getPaymentDataRequest props None None].
Proof.
  intros Hc. unfold onGooglePayButtonClicked.
  destruct (paymentsClient st) as [c|] eqn:Ec; [|congruence].
  cbv zeta. rewrite outstandingFlows_await. cbn. rewrite Ec. auto.
Qed.

(** Two clicks in a row on [ready_state]: two [loadPaymentData] promises are
    in flight at once. *)
Example two_clicks_two_flows :
  exists st,
    run defaultProps (initial true) (trace_ready ++ [Clicked; Clicked]) = Some st
    /\ outstandingFlows st = 2
    /\ pending st
       = [(3, AwaitLoadPaymentData (getPaymentDataRequest defaultProps None None));
          (4, AwaitLoadPaymentData (getPaymentDataRequest defaultProps None None))].
Proof. eexists. split; [vm_compute; reflexivity|]. split; reflexivity. Qed.

(** C4, as stated, fails: the click handler has no guard, so a second click
    while the first [loadPaymentData] promise is pending starts a second
    one. *)
Lemma C4_one_flow_counterexample : ~ one_flow_at_a_time defaultProps.
Proof.
  intros Hclaim.
  destruct two_clicks_two_flows as (st & Hrun & Hn & _).
  specialize (Hclaim true _ st Hrun). rewrite Hn in Hclaim. lia.
Qed.

(** C4, amended.  Every click on an adapter that has a client calls
    [loadPaymentData] with a new request and leaves one more payment flow
    outstanding, whatever flows are already outstanding: [n] clicks in a row
    add [n] flows and [n] calls.  The adapter neither disables nor debounces
    repeat submissions. *)
Theorem C4_every_click_starts_a_flow (props : Props) (n : nat) :
  forall st,
    paymentsClient st <> None ->
    exists st',
      run props st (repeat Clicked n) = Some st'
      /\ outstandingFlows st' = outstandingFlows st + n
      /\ loadCalls st' = loadCalls st ++ repeat (getPaymentDataRequest props None None) n.
Proof.
  induction n as [|n IH]; intros st Hc; simpl.
  - exists st. rewrite Nat.add_0_r, app_nil_r. auto.
  - destruct (click_starts_flow props st Hc) as (E1 & E2 & E3).
    destruct (IH (onGooglePayButtonClicked props st)) as (st' & Hrun & F1 & F2).
    { congruence. }
    exists st'. split; [exact Hrun|]. rewrite F1, F2, E2, E3, <- app_assoc.
    split; [lia|reflexivity].
Qed.

(** Three clicks on [ready_state]. *)
Lemma C4_every_click_witness :
  exists st',
    run defaultProps ready_state (repeat Clicked 3) = Some st'
    /\ outstandingFlows st' = outstandingFlows ready_state + 3
    /\ loadCalls st'
       = loadCalls ready_state ++ repeat (getPaymentDataRequest defaultProps None None) 3.
Proof.
  apply (C4_every_click_starts_a_flow defaultProps 3 ready_state).
  vm_compute. discriminate.
Defined.

(** ** Promise identities *)

Lemma take_pending_Forall (P : nat * Pending -> Prop) (id : nat) :
  forall ps p rest,
    take_pending id ps = Some (p, rest) -> Forall P ps -> Forall P rest.
Proof.
  induction ps as [|[k q] ps IH]; intros p rest H Hall; simpl in H; [discriminate|].
  inversion Hall as [|? ? Hq Hps]; subst.
  destruct (Nat.eqb id k).
  - now injection H as <- <-.
  - destruct (take_pending id ps) as [[q' rest']|]; [|discriminate].
    injection H as <- <-. constructor; eauto.
Qed.

(** The promise awaited last is found under its own identity. *)
Lemma take_pending_snoc_fresh (n : nat) (p : Pending) :
  forall rest,
    Forall (fun e => fst e < n) rest ->
    take_pending n (rest ++ [(n, p)]) = Some (p, rest).
Proof.
  induction rest as [|[k q] rest IH]; intros Hall; simpl.
  - now rewrite Nat.eqb_refl.
  - inversion Hall as [|? ? Hk Hrest]; subst. simpl in Hk.
    destruct (Nat.eqb_spec n k) as [->|_]; [lia|]. now rewrite IH.
Qed.

Ltac pending_bounds :=
  repeat first
    [ apply Forall_app; split
    | apply Forall_cons; [cbn; lia|]
    | apply Forall_nil
    | eapply Forall_impl; [|eassumption]; cbn; intros; lia ].

Lemma step_pending_fresh (props : Props) (st st' : State) (a : Action) :
  pending_fresh st -> step props st a = Some st' -> pending_fresh st'.
Proof.
  unfold pending_fresh. intros Hst H.
  step_inv H;
    try (pose proof (take_pending_Forall _ _ _ _ _ Htp Hst) as Hrest);
    segments; cbn;
    try (destruct (onBeforeUnmount_frame st) as (_ & _ & _ & _ & E5 & _ & _ & _ & E9);
         now rewrite E5, E9);
    try match goal with
        | |- context [createAndAddButton ?c ?s] =>
            destruct (createAndAddButton_frame c s) as (_ & _ & _ & _ & E5 & _ & _ & _ & E9);
            destruct result; cbn; rewrite ?E5, ?E9; cbn
        end;
    break_tests; cbn; pending_bounds.
Qed.

Lemma run_pending_fresh (props : Props) (trace : list Action) :
  forall st st', pending_fresh st -> run props st trace = Some st' -> pending_fresh st'.
Proof.
  induction trace as [|a trace IH]; intros st st' Hst H; simpl in H.
  - now injection H as <-.
  - destruct (step props st a) as [st1|] eqn:Hs; [|discriminate].
    eapply IH; [|exact H]. eapply step_pending_fresh; eauto.
Qed.

Lemma reachable_pending_fresh (props : Props) (st : State) :
  reachable props st -> pending_fresh st.
Proof.
  intros (api & trace & H). eapply run_pending_fresh; [|exact H]. constructor.
Qed.

(** ** Events are never taken back *)

Lemma step_emitted_grows (props : Props) (st st' : State) (a : Action) :
  step props st a = Some st' -> exists more, emitted st' = emitted st ++ more.
Proof.
  intros H.
  step_inv H; segments; cbn;
    try (destruct (onBeforeUnmount_frame st) as (_ & E & _);
         exists []; now rewrite E, app_nil_r);
    try match goal with
        | |- context [createAndAddButton ?c ?s] =>
            destruct (createAndAddButton_frame c s) as (_ & E & _);
            destruct result; cbn; rewrite ?E; cbn
        end;
    break_tests; cbn;
    solve [ exists []; now rewrite app_nil_r | eexists; reflexivity ].
Qed.

Lemma run_emitted_grows (props : Props) (trace : list Action) :
  forall st st',
    run props st trace = Some st' -> exists more, emitted st' = emitted st ++ more.
Proof.
  induction trace as [|a trace IH]; intros st st' H; simpl in H.
  - injection H as <-. exists []. now rewrite app_nil_r.
  - destruct (step props st a) as [st1|] eqn:Hs; [|discriminate].
    destruct (step_emitted_grows props st st1 a Hs) as (m1 & E1).
    destruct (IH st1 st' H) as (m2 & E2).
    exists (m1 ++ m2). now rewrite E2, E1, app_assoc.
Qed.

(** ** The backend relay *)

(** The relay of [relaying_state] is answered with status 500 and a body that
    does not parse: Status reports success and no error is emitted. *)
Example relay_500_unparsable :
  exists st',
    run defaultProps relaying_state
      [FetchResolved 4 (mkResponse 500); JsonSettled 5 None] = Some st'
    /\ status st' = "Server processed payment."
    /\ emitted st' = [EvReady true; EvSuccess "token"]
    /\ emitted relaying_state = [EvReady true; EvSuccess "token"].
Proof. eexists. split; [vm_compute; reflexivity|]. repeat split. Qed.

(** C5, as stated, fails: [handlePaymentSuccess] never reads the response's
    status and replaces a body that does not parse by [null], so a relay
    answered with 500 and an unparsable body ends in 'Server processed
    payment.' with no error event. *)
Lemma C5_relay_counterexample : ~ relay_failures_reported defaultProps.
Proof.
  intros Hclaim.
  destruct relay_500_unparsable as (st' & Hrun & Hstatus & _).
  destruct (Hclaim true trace_relaying relaying_state 4 "token" []
              (mkResponse 500) None st') as (_ & Hne).
  - vm_compute. reflexivity.
  - vm_compute. reflexivity.
  - now right.
  - exact Hrun.
  - now apply Hne.
Qed.

(** C5, amended.  For a relay in flight on an adapter the component can
    reach: when [fetch] rejects (network error), Status becomes 'Error sending
    token to server; see console.' and [error] is emitted with the cause; when
    [fetch] resolves, whatever the response's status code and whether or not
    its body parses, Status becomes 'Server processed payment.' and nothing is
    emitted.  In every case the events emitted before, the [success] event
    among them, stay emitted: no run takes an event back. *)
Theorem C5_relay_outcomes (props : Props) (st : State)
    (id : nat) (paymentData : PaymentData) (rest : list (nat * Pending)) :
  reachable props st ->
  take_pending id (pending st) = Some (AwaitFetch paymentData, rest) ->
  (forall err, exists st',
      step props st (FetchRejected id err) = Some st'
      /\ status st' = "Error sending token to server; see console."
      /\ emitted st' = emitted st ++ [EvError err])
  /\ (forall res body, exists st',
        run props st [FetchResolved id res; JsonSettled (fresh st) body] = Some st'
        /\ status st' = "Server processed payment."
        /\ emitted st' = emitted st)
  /\ (forall trace st',
        run props st trace = Some st' -> exists more, emitted st' = emitted st ++ more).
Proof.
  intros Hreach Htp. split; [|split].
  - intros err. cbn [step]. rewrite Htp. eexists. split; [reflexivity|]. split; reflexivity.
  - intros res body. cbn [run step]. rewrite Htp.
    unfold handlePaymentSuccess_fetchResolved, await. cbn.
    rewrite take_pending_snoc_fresh.
    + eexists. split; [reflexivity|]. split; reflexivity.
    + eapply take_pending_Forall; [exact Htp|].
      exact (reachable_pending_fresh props st Hreach).
  - intros trace st' H. eapply run_emitted_grows; eauto.
Qed.

(** The relay of [relaying_state]: a network error is reported, a 404 is not. *)
Lemma C5_relay_outcomes_witness :
  (exists st',
      step defaultProps relaying_state (FetchRejected 4 (NetworkError "offline")) = Some st'
      /\ status st' = "Error sending token to server; see console."
      /\ emitted st' = emitted relaying_state ++ [EvError (NetworkError "offline")])
  /\ (exists st',
        run defaultProps relaying_state
          [FetchResolved 4 (mkResponse 404); JsonSettled (fresh relaying_state) None]
        = Some st'
        /\ status st' = "Server processed payment."
        /\ emitted st' = emitted relaying_state).
Proof.
  assert (Hreach : reachable defaultProps relaying_state).
  { exists true, trace_relaying. vm_compute. reflexivity. }
  assert (Htp : take_pending 4 (pending relaying_state) = Some (AwaitFetch "token", [])).
  { vm_compute. reflexivity. }
  split.
  - apply (proj1 (C5_relay_outcomes defaultProps relaying_state 4 "token" [] Hreach Htp)).
  - apply (proj1 (proj2 (C5_relay_outcomes defaultProps relaying_state 4 "token" []
                           Hreach Htp))).
Defined.

(** ** Teardown while promises are in flight *)

(** [ready_state] was clicked, then torn down, then the vendor resolved the
    payment: Status changes, [success] is emitted and the relay is posted. *)
Example resolution_after_teardown :
  exists st_t st',
    run defaultProps (initial true) (trace_clicked ++ [BeforeUnmount]) = Some st_t
    /\ run defaultProps st_t [PaymentResolved 3 "token"] = Some st'
    /\ paymentsClient st_t = None
    /\ attachedButtons st_t = []
    /\ status st_t = "Google Pay is available. Click the button to pay."
    /\ emitted st_t = [EvReady true]
    /\ status st' = "Payment authorized. Processing..."
    /\ emitted st' = [EvReady true; EvSuccess "token"]
    /\ posts st' = [mkPost "/process-payment" "POST" "token"].
Proof.
  eexists. eexists. split; [vm_compute; reflexivity|].
  split; [vm_compute; reflexivity|]. repeat split.
Qed.

(** C3, as stated, fails: the handlers attached to a promise do not look at
    whether teardown has run, so a payment that resolves after teardown still
    sets Status and calls [emit]. *)
Lemma C3_teardown_counterexample : ~ teardown_discards_results defaultProps.
Proof.
  intros Hclaim.
  destruct resolution_after_teardown
    as (st_t & st' & Hpre & Hpost & _ & _ & Hs & _ & Hs' & _).
  destruct (Hclaim true trace_clicked [PaymentResolved 3 "token"] st_t st' Hpre
              eq_refl Hpost) as (_ & E).
  rewrite Hs, Hs' in E. discriminate E.
Qed.

(** C3, amended.  The [onBeforeUnmount] hook emits nothing, leaves Status as
    it is and cancels nothing: every promise in flight stays in flight.  When
    such a promise settles after teardown its handler runs as it would have
    without teardown: a resolved [loadPaymentData] sets Status to 'Payment
    authorized. Processing...' and calls [emit('success', paymentData)], a
    rejected one sets the failure Status and calls [emit('error', err)]; a
    rejected relay sets its failure Status and calls [emit('error', err)]; a
    relay whose body was read sets Status to 'Server processed payment.'. *)
Theorem C3_teardown_cancels_nothing (props : Props) (st : State) :
  step props st BeforeUnmount = Some (onBeforeUnmount st)
  /\ emitted (onBeforeUnmount st) = emitted st
  /\ status (onBeforeUnmount st) = status st
  /\ pending (onBeforeUnmount st) = pending st
  /\ (forall id request rest,
        take_pending id (pending st) = Some (AwaitLoadPaymentData request, rest) ->
        (forall paymentData, exists st',
            step props (onBeforeUnmount st) (PaymentResolved id paymentData) = Some st'
            /\ status st' = "Payment authorized. Processing..."
            /\ emitted st' = emitted st ++ [EvSuccess paymentData])
        /\ (forall err, exists st',
              step props (onBeforeUnmount st) (PaymentRejected id err) = Some st'
              /\ status st' = "Payment cancelled or failed; check console."
              /\ emitted st' = emitted st ++ [EvError err]))
  /\ (forall id paymentData rest,
        take_pending id (pending st) = Some (AwaitFetch paymentData, rest) ->
        forall err, exists st',
          step props (onBeforeUnmount st) (FetchRejected id err) = Some st'
          /\ status st' = "Error sending token to server; see console."
          /\ emitted st' = emitted st ++ [EvError err])
  /\ (forall id rest,
        take_pending id (pending st) = Some (AwaitJson, rest) ->
        forall body, exists st',
          step props (onBeforeUnmount st) (JsonSettled id body) = Some st'
          /\ status st' = "Server processed payment."
          /\ emitted st' = emitted st).
Proof.
  destruct (onBeforeUnmount_frame st) as (Es & Ee & _ & _ & Ep & _).
  split; [reflexivity|]. split; [exact Ee|]. split; [exact Es|]. split; [exact Ep|].
  split; [|split].
  - intros id request rest Htp. split.
    + intros paymentData. cbn [step]. rewrite Ep, Htp. eexists.
      split; [reflexivity|]. unfold handlePaymentSuccess.
      destruct (autoSendToServer props); cbn; now rewrite Ee.
    + intros err. cbn [step]. rewrite Ep, Htp. eexists.
      split; [reflexivity|]. cbn. now rewrite Ee.
  - intros id paymentData rest Htp err. cbn [step]. rewrite Ep, Htp. eexists.
    split; [reflexivity|]. cbn. now rewrite Ee.
  - intros id rest Htp body. cbn [step]. rewrite Ep, Htp. eexists.
    split; [reflexivity|]. cbn. now rewrite Ee.
Qed.

(** Teardown of the clicked adapter, then the payment resolves or is
    rejected. *)
Lemma C3_teardown_witness :
  (exists st',
      step defaultProps (onBeforeUnmount (clicked_state defaultProps))
        (PaymentResolved 3 "token") = Some st'
      /\ status st' = "Payment authorized. Processing..."
      /\ emitted st' = emitted (clicked_state defaultProps) ++ [EvSuccess "token"])
  /\ (exists st',
        step defaultProps (onBeforeUnmount (clicked_state defaultProps))
          (PaymentRejected 3 (VendorError "CANCELED")) = Some st'
        /\ status st' = "Payment cancelled or failed; check console."
        /\ emitted st'
           = emitted (clicked_state defaultProps) ++ [EvError (VendorError "CANCELED")]).
Proof.
  assert (Htp : take_pending 3 (pending (clicked_state defaultProps))
                = Some (AwaitLoadPaymentData (getPaymentDataRequest defaultProps None None),
                        [])).
  { vm_compute. reflexivity. }
  destruct (C3_teardown_cancels_nothing defaultProps (clicked_state defaultProps))
    as (_ & _ & _ & _ & Hload & _).
  destruct (Hload 3 _ [] Htp) as (Hres & Hrej).
  split; [apply Hres | apply Hrej].
Defined.

(** ** The cart total of the Stripe widget *)

Lemma qty_or_1_effective (q : JsQty) : qty_or_1 q = effective_qty q.
Proof. destruct q; reflexivity. Qed.

Lemma add_item_line_cents (sum : Number) (item : CartItem) :
  add_item sum item = (sum + line_cents item)%float.
Proof. unfold add_item, line_cents. now rewrite qty_or_1_effective. Qed.

(** The reduction from any starting value is the sum in list order. *)
Lemma reduce_sum_from (cart : list CartItem) :
  forall acc, fold_left add_item cart acc = sum_from acc (map line_cents cart).
Proof.
  induction cart as [|item cart IH]; intros acc; simpl; [reflexivity|].
  now rewrite add_item_line_cents, IH.
Qed.

(** [Math.round] on values around a tie, and on a product that falls just
    below one. *)
Example Math_round_samples :
  Math_round 2.5%float = 3%float
  /\ Math_round (-2.5)%float = (-2)%float
  /\ Math_round (-0.5)%float = (-0)%float
  /\ Math_round 0x1.fffffffffffffp-2%float = 0%float
  /\ Math_round (0x1.0147ae147ae14p+0 * 100)%float = 100%float
  /\ Math_round (0x1.3fd70a3d70a3dp+4 * 100)%float = 1999%float.
Proof. vm_compute. repeat split. Qed.

(** The sample cart costs 2 * 1999 + 100 + 500 cents. *)
Example totalAmount_sample : totalAmount sample_cart = 4598%float.
Proof. vm_compute. reflexivity. Qed.

(** C10.  For every cart, [totalAmount] is the sum, taken in cart order from
    zero in JS number arithmetic, of [Math.round(price * 100) * qty] over the
    items, a missing or falsy [qty] ([undefined], [null], [0], [-0], [NaN])
    counting as 1; each further item adds its line to the total; and the
    total of the empty cart is exactly 0. *)
Theorem C10_totalAmount_is_cart_sum :
  (forall cart, totalAmount cart = cart_sum cart)
  /\ (forall cart item,
        totalAmount (cart ++ [item]) = (totalAmount cart + line_cents item)%float)
  /\ (forall p,
        line_cents (mkCartItem p QtyUndefined) = (Math_round (price p * 100) * 1)%float
        /\ line_cents (mkCartItem p QtyNull) = (Math_round (price p * 100) * 1)%float
        /\ line_cents (mkCartItem p (QtyNumber 0%float))
           = (Math_round (price p * 100) * 1)%float
        /\ line_cents (mkCartItem p (QtyNumber (-0)%float))
           = (Math_round (price p * 100) * 1)%float
        /\ line_cents (mkCartItem p (QtyNumber nan))
           = (Math_round (price p * 100) * 1)%float)
  /\ (forall p x,
        number_truthy x = true ->
        line_cents (mkCartItem p (QtyNumber x)) = (Math_round (price p * 100) * x)%float)
  /\ totalAmount [] = 0%float.
Proof.
  split; [|split; [|split; [|split]]].
  - intros cart. unfold totalAmount, cart_sum. apply reduce_sum_from.
  - intros cart item. unfold totalAmount. rewrite fold_left_app. simpl.
    apply add_item_line_cents.
  - intros p. repeat split.
  - intros p x Hx. unfold line_cents, effective_qty. simpl. now rewrite Hx.
  - reflexivity.
Qed.

(** A line of three items at 19.99. *)
Lemma C10_totalAmount_witness :
  line_cents (mkCartItem (mkProduct "lamp" 0x1.3fd70a3d70a3dp+4%float) (QtyNumber 3%float))
  = (Math_round (0x1.3fd70a3d70a3dp+4 * 100) * 3)%float.
Proof.
  apply (proj1 (proj2 (proj2 (proj2 C10_totalAmount_is_cart_sum)))
           (mkProduct "lamp" 0x1.3fd70a3d70a3dp+4%float) 3%float).
  vm_compute. reflexivity.
Defined.

(** * Further properties of the Google Pay component *)

(** ** Teardown *)

Lemma contains_In (kids : list Node) (n : Node) :
  contains kids n = true <-> In n kids.
Proof.
  unfold contains. rewrite existsb_exists. split.
  - intros (k & Hk & E). apply Nat.eqb_eq in E. now subst.
  - intros H. exists n. split; [exact H|apply Nat.eqb_refl].
Qed.

Lemma removeChild_not_In (kids : list Node) (n : Node) : ~ In n (removeChild kids n).
Proof.
  unfold removeChild. intros H. apply filter_In in H as [_ H].
  now rewrite Nat.eqb_refl in H.
Qed.

Lemma contains_removeChild (kids : list Node) (n : Node) :
  contains (removeChild kids n) n = false.
Proof.
  destruct (contains (removeChild kids n) n) eqn:E; [|reflexivity].
  apply contains_In in E. now apply removeChild_not_In in E.
Qed.

#[local] Arguments contains _ _ : simpl never.
#[local] Arguments removeChild _ _ : simpl never.

(** X1.  The [onBeforeUnmount] hook is idempotent: running it a second time
    changes nothing, in whatever state the first run started. *)
Theorem X1_teardown_idempotent (st : State) :
  onBeforeUnmount (onBeforeUnmount st) = onBeforeUnmount st.
Proof.
  destruct st as [s l c b e k g h ev ps lc inj pd f].
  unfold onBeforeUnmount, detachButton. cbn.
  destruct e as [el|]; [destruct (contains h el) eqn:Eh|]; cbn;
    destruct b as [n|]; cbn;
    try (destruct k as [kids|]; cbn; [destruct (contains kids n) eqn:Ek|]; cbn);
    rewrite ?contains_removeChild, ?Eh; cbn;
    rewrite ?contains_removeChild, ?Ek; cbn; reflexivity.
Qed.

(** X2.  In every state the component can reach, the [onBeforeUnmount] hook
    releases what the adapter holds: the client is null, no ButtonElement is
    attached to the container, the script element [scriptEl] pointed to is not
    in [document.head]; a click that still arrives only sets Status. *)
Theorem X2_teardown_releases (props : Props) (st : State) :
  reachable props st ->
  paymentsClient (onBeforeUnmount st) = None
  /\ attachedButtons (onBeforeUnmount st) = []
  /\ (forall el, scriptEl st = Some el -> ~ In el (head (onBeforeUnmount st)))
  /\ step props (onBeforeUnmount st) Clicked
     = Some (set_status "Payments client not initialized." (onBeforeUnmount st)).
Proof.
  intros Hreach. pose proof (reachable_button_inv props st Hreach) as Hinv.
  assert (Hc : paymentsClient (onBeforeUnmount st) = None).
  { unfold onBeforeUnmount. now rewrite detachButton_client. }
  split; [exact Hc|]. split; [|split].
  - unfold attachedButtons, onBeforeUnmount. rewrite detachButton_container.
    + cbn. now break_tests.
    + unfold button_inv in *. cbn.
      destruct (scriptEl st) as [el|]; [destruct (contains (head st) el)|]; exact Hinv.
  - intros el Hel. unfold onBeforeUnmount.
    match goal with
    | |- context [detachButton ?s] =>
        destruct (detachButton_frame s) as (_ & _ & _ & _ & _ & _ & _ & E & _)
    end.
    rewrite E, Hel. cbn. destruct (contains (head st) el) eqn:Ec; cbn.
    + apply removeChild_not_In.
    + intros Hin. apply contains_In in Hin. congruence.
  - cbn [step]. unfold onGooglePayButtonClicked. now rewrite Hc.
Qed.

(** Teardown of the adapter whose button 100 is mounted. *)
Lemma X2_teardown_releases_witness :
  paymentsClient (onBeforeUnmount ready_state) = None
  /\ attachedButtons (onBeforeUnmount ready_state) = []
  /\ (forall el, scriptEl ready_state = Some el ->
        ~ In el (head (onBeforeUnmount ready_state)))
  /\ step defaultProps (onBeforeUnmount ready_state) Clicked
     = Some (set_status "Payments client not initialized." (onBeforeUnmount ready_state)).
Proof.
  apply (X2_teardown_releases defaultProps ready_state).
  exists true, trace_ready. vm_compute. reflexivity.
Defined.

(** ** The injected script element *)

Lemma detachButton_scriptEl (st : State) : scriptEl (detachButton st) = scriptEl st.
Proof. unfold detachButton. now break_tests. Qed.

Lemma createAndAddButton_scriptEl (created : option Node) (st : State) :
  scriptEl (createAndAddButton created st) = scriptEl st.
Proof.
  unfold createAndAddButton. pose proof (detachButton_scriptEl st) as E.
  break_tests; cbn; auto.
Qed.

Lemma onBeforeUnmount_script_inv (st : State) :
  script_inv st -> head (onBeforeUnmount st) = [].
Proof.
  intros Hinv. unfold onBeforeUnmount.
  match goal with
  | |- context [detachButton ?s] =>
      destruct (detachButton_frame s) as (_ & _ & _ & _ & _ & _ & _ & E & _)
  end.
  rewrite E. cbn. destruct Hinv as [Hh | (el & Hh & He)].
  - rewrite Hh. now break_tests.
  - rewrite He, Hh, contains_self. cbn. apply removeChild_self.
Qed.

(** A turn other than the [onMounted] hook appends nothing to the head and
    keeps the ownership of the script element. *)
Lemma step_script_inv (props : Props) (st st' : State) (a : Action) :
  is_Mounted a = false ->
  step props st a = Some st' ->
  injected st' = injected st
  /\ (head st = [] -> head st' = [])
  /\ (script_inv st -> script_inv st').
Proof.
  intros Hm H.
  step_inv H; try discriminate Hm; segments; unfold script_inv; cbn;
    try (destruct (onBeforeUnmount_frame st) as (_ & _ & _ & _ & _ & E & _);
         split; [exact E|]; split;
         [ intros Hh; apply onBeforeUnmount_script_inv; now left
         | intros Hinv; left; now apply onBeforeUnmount_script_inv ]);
    try match goal with
        | |- context [createAndAddButton ?c ?s] =>
            destruct (createAndAddButton_frame c s)
              as (_ & _ & _ & _ & _ & E6 & _ & E8 & _);
            pose proof (createAndAddButton_scriptEl c s) as Es;
            destruct result; cbn; rewrite ?E6, ?E8, ?Es; cbn
        end;
    break_tests; cbn; auto.
Qed.

Lemma mounts_cons (a : Action) (trace : list Action) :
  mounts (a :: trace) = (if is_Mounted a then 1 else 0) + mounts trace.
Proof. unfold mounts. simpl. now destruct (is_Mounted a). Qed.

Lemma run_script_inv (props : Props) (trace : list Action) :
  forall st st',
    mounts trace = 0 ->
    run props st trace = Some st' ->
    injected st' = injected st
    /\ (head st = [] -> head st' = [])
    /\ (script_inv st -> script_inv st').
Proof.
  induction trace as [|a trace IH]; intros st st' Hm H; simpl in H.
  - injection H as <-. auto.
  - rewrite mounts_cons in Hm.
    destruct (is_Mounted a) eqn:Ea; [discriminate Hm|].
    destruct (step props st a) as [st1|] eqn:Hs; [|discriminate].
    destruct (step_script_inv props st st1 a Ea Hs) as (A1 & A2 & A3).
    destruct (IH st1 st' Hm H) as (B1 & B2 & B3).
    repeat split; [congruence|auto|auto].
Qed.

(** The first initialisation injects at most one element, and owns it. *)
Lemma initGooglePay_script_inv (st : State) :
  head st = [] ->
  injected st = [] ->
  script_inv (initGooglePay st) /\ length (injected (initGooglePay st)) <= 1.
Proof.
  intros Hh Hi. unfold initGooglePay, loadGooglePayScript, script_inv, await.
  destruct (googleApi st); cbn; rewrite Hh, Hi; cbn.
  - split; [now left|lia].
  - split; [right; exists (fresh st); split; reflexivity|lia].
Qed.

Lemma run_single_mount (props : Props) (trace : list Action) :
  forall st st',
    head st = [] ->
    injected st = [] ->
    mounts trace <= 1 ->
    run props st trace = Some st' ->
    length (injected st') <= 1 /\ script_inv st'.
Proof.
  induction trace as [|a trace IH]; intros st st' Hh Hi Hm H; simpl in H.
  - injection H as <-. rewrite Hi. split; [simpl; lia|now left].
  - rewrite mounts_cons in Hm.
    destruct (step props st a) as [st1|] eqn:Hs; [|discriminate].
    destruct (is_Mounted a) eqn:Ea.
    + destruct a; try discriminate Ea. cbn [step] in Hs. injection Hs as <-.
      destruct (initGooglePay_script_inv st Hh Hi) as (Hinv & Hlen).
      destruct (run_script_inv props trace _ st' ltac:(lia) H) as (E & _ & Hkeep).
      rewrite E. auto.
    + destruct (step_script_inv props st st1 a Ea Hs) as (A1 & A2 & _).
      apply (IH st1 st'); [auto|congruence|lia|exact H].
Qed.

(** X3.  A component whose [onMounted] hook runs at most once injects at most
    one script element, whatever else happens; [document.head] then holds
    nothing of the component or exactly the element [scriptEl] points to, and
    the [onBeforeUnmount] hook leaves the head without it. *)
Theorem X3_one_script_per_mount
    (props : Props) (api : bool) (trace : list Action) (st : State) :
  mounts trace <= 1 ->
  run props (initial api) trace = Some st ->
  length (injected st) <= 1
  /\ script_inv st
  /\ head (onBeforeUnmount st) = [].
Proof.
  intros Hm H.
  destruct (run_single_mount props trace (initial api) st eq_refl eq_refl Hm H)
    as (Hlen & Hinv).
  auto using onBeforeUnmount_script_inv.
Qed.

(** A page without the vendor API: the script is injected, it loads, the
    button is mounted and clicked. *)
Lemma X3_one_script_witness :
  length (injected (state_after defaultProps false
                      [Mounted; ScriptLoaded 1 true;
                       IsReadyResolved 3 true (Some 100); Clicked])) <= 1
  /\ script_inv (state_after defaultProps false
                   [Mounted; ScriptLoaded 1 true;
                    IsReadyResolved 3 true (Some 100); Clicked])
  /\ head (onBeforeUnmount
             (state_after defaultProps false
                [Mounted; ScriptLoaded 1 true;
                 IsReadyResolved 3 true (Some 100); Clicked])) = [].
Proof.
  apply (X3_one_script_per_mount defaultProps false
           [Mounted; ScriptLoaded 1 true; IsReadyResolved 3 true (Some 100); Clicked]).
  - vm_compute. lia.
  - vm_compute. reflexivity.
Defined.

(** ** Counting promises and events *)

Lemma take_pending_count (g : Pending -> bool) (id : nat) :
  forall ps p rest,
    take_pending id ps = Some (p, rest) ->
    length (filter (fun e => g (snd e)) ps)
    = (if g p then 1 else 0) + length (filter (fun e => g (snd e)) rest).
Proof.
  induction ps as [|[k q] ps IH]; intros p rest H; simpl in H; [discriminate|].
  destruct (Nat.eqb id k).
  - injection H as <- <-. simpl. now destruct (g q).
  - destruct (take_pending id ps) as [[q' rest']|]; [|discriminate].
    injection H as <- <-. pose proof (IH q' rest' eq_refl) as E.
    simpl. destruct (g q), (g q'); simpl; lia.
Qed.

Lemma readyCount_app (l1 l2 : list Event) :
  readyCount (l1 ++ l2) = readyCount l1 + readyCount l2.
Proof.
  induction l1 as [|[| |] l1 IH]; simpl; auto.
Qed.

Lemma successes_app (l1 l2 : list Event) :
  successes (l1 ++ l2) = successes l1 ++ successes l2.
Proof.
  induction l1 as [|[| |] l1 IH]; simpl; auto. now rewrite IH.
Qed.

Lemma detachButton_loading (st : State) : loading (detachButton st) = loading st.
Proof. unfold detachButton. now break_tests. Qed.

Lemma createAndAddButton_loading_client (created : option Node) (st : State) :
  loading (createAndAddButton created st) = loading st
  /\ paymentsClient (createAndAddButton created st) = paymentsClient st.
Proof.
  unfold createAndAddButton.
  pose proof (detachButton_loading st) as E1.
  pose proof (detachButton_client st) as E2.
  destruct (paymentsClient st) eqn:Ec; auto.
  break_tests; cbn; rewrite ?E2; auto.
Qed.

Lemma onBeforeUnmount_loading (st : State) : loading (onBeforeUnmount st) = loading st.
Proof.
  unfold onBeforeUnmount. rewrite detachButton_loading. cbn. now break_tests.
Qed.

(** Splits a turn like [step_inv] and records how the promise taken out of
    the promises in flight counts among the runs of [initGooglePay]. *)
Ltac step_counts H :=
  step_inv H;
  try match goal with
      | Htp : take_pending _ (pending _) = Some _ |- _ =>
          let Hcnt := fresh "Hcnt" in
          pose proof (take_pending_count init_promise _ _ _ _ Htp) as Hcnt;
          cbn in Hcnt
      end;
  segments; unfold initFlows in *; cbn;
  try match goal with
      | |- context [onBeforeUnmount ?s] =>
          let E := fresh "E" in
          let El := fresh "El" in
          destruct (onBeforeUnmount_frame s) as (_ & E & _ & _ & E5 & _);
          pose proof (onBeforeUnmount_loading s) as El;
          rewrite ?E, ?E5, ?El
      end;
  try match goal with
      | |- context [createAndAddButton ?c ?s] =>
          let E := fresh "E" in
          destruct (createAndAddButton_frame c s) as (_ & E & _ & _ & E5 & _);
          destruct (createAndAddButton_loading_client c s) as (El & Ec);
          try rewrite E; try rewrite E5; try rewrite El; try rewrite Ec; cbn
      end.

(** ** The loading indicator *)

Lemma step_loading (props : Props) (st st' : State) (a : Action) :
  step props st a = Some st' ->
  (loading st = false -> loading st' = false)
  /\ ((loading st = true -> 0 < initFlows st) ->
      loading st' = true -> 0 < initFlows st').
Proof.
  intros H.
  step_counts H; break_tests; cbn;
    rewrite ?filter_app, ?length_app; cbn;
    (split; [auto|]); intros Hinv Hl; try discriminate Hl;
    try specialize (Hinv Hl); try lia.
Qed.

Lemma run_loading (props : Props) (trace : list Action) :
  forall st st',
    run props st trace = Some st' ->
    (loading st = false -> loading st' = false)
    /\ ((loading st = true -> 0 < initFlows st) ->
        loading st' = true -> 0 < initFlows st').
Proof.
  induction trace as [|a trace IH]; intros st st' H; simpl in H.
  - injection H as <-. auto.
  - destruct (step props st a) as [st1|] eqn:Hs; [|discriminate].
    destruct (step_loading props st st1 a Hs) as (A1 & A2).
    destruct (IH st1 st' H) as (B1 & B2). auto.
Qed.

(** X4.  The loading flag is never switched back on; and once the
    [onMounted] hook has run, the flag is on only while a run of
    [initGooglePay] is still waiting for the script or for the readiness
    check: every way [initGooglePay] can end (script failed, check threw or
    rejected, check answered) switches it off. *)
Theorem X4_loading_only_while_initialising (props : Props) :
  (forall st trace st',
      loading st = false -> run props st trace = Some st' -> loading st' = false)
  /\ (forall api trace st,
        run props (initial api) (Mounted :: trace) = Some st ->
        loading st = true -> 0 < initFlows st).
Proof.
  split.
  - intros st trace st' Hl H. now apply (run_loading props trace st st' H).
  - intros api trace st H. cbn [run step] in H.
    apply (run_loading props trace _ st H). intros _.
    unfold initGooglePay, loadGooglePayScript, initFlows, await.
    destruct api; cbn; lia.
Qed.

(** While the readiness check of [checking_state] is in flight the flag is
    on and one initialisation is counted. *)
Lemma X4_loading_witness : 0 < initFlows checking_state.
Proof.
  apply (proj2 (X4_loading_only_while_initialising defaultProps) true
           [ScriptLoaded 0 false] checking_state).
  - vm_compute. reflexivity.
  - vm_compute. reflexivity.
Defined.

(** ** An adapter without a client and without a pending initialisation *)

Lemma step_stays_released (props : Props) (st st' : State) (a : Action) :
  is_Mounted a = false ->
  paymentsClient st = None ->
  initFlows st = 0 ->
  step props st a = Some st' ->
  paymentsClient st' = None /\ initFlows st' = 0 /\ loadCalls st' = loadCalls st.
Proof.
  intros Hm Hc Hi H.
  step_inv H; try discriminate Hm;
    try match goal with
        | Htp : take_pending _ (pending _) = Some _ |- _ =>
            pose proof (take_pending_count init_promise _ _ _ _ Htp) as Hcnt;
            unfold initFlows in Hi; cbn in Hcnt; try lia
        end;
    segments; unfold initFlows in *; cbn; rewrite ?Hc; cbn;
    try (destruct (onBeforeUnmount_frame st) as (_ & _ & _ & E4 & E5 & _);
         rewrite E4, E5; unfold onBeforeUnmount; rewrite detachButton_client; auto);
    break_tests; cbn; rewrite ?filter_app, ?length_app; cbn;
    repeat split; auto; lia.
Qed.

Lemma run_stays_released (props : Props) (trace : list Action) :
  forall st st',
    mounts trace = 0 ->
    paymentsClient st = None ->
    initFlows st = 0 ->
    run props st trace = Some st' ->
    paymentsClient st' = None /\ initFlows st' = 0 /\ loadCalls st' = loadCalls st.
Proof.
  induction trace as [|a trace IH]; intros st st' Hm Hc Hi H; simpl in H.
  - injection H as <-. auto.
  - rewrite mounts_cons in Hm.
    destruct (is_Mounted a) eqn:Ea; [discriminate Hm|].
    destruct (step props st a) as [st1|] eqn:Hs; [|discriminate].
    destruct (step_stays_released props st st1 a Ea Hc Hi Hs) as (A1 & A2 & A3).
    destruct (IH st1 st' Hm A1 A2 H) as (B1 & B2 & B3).
    repeat split; congruence.
Qed.

(** X5.  An adapter that has no client and no initialisation in flight (after
    a failed script load or readiness check, or after teardown once
    initialisation has settled) stays that way until the [onMounted] hook runs
    again: no turn builds a client, and no click or settling promise calls
    [loadPaymentData]. *)
Theorem X5_no_client_no_payment
    (props : Props) (st st' : State) (trace : list Action) :
  paymentsClient st = None ->
  initFlows st = 0 ->
  mounts trace = 0 ->
  run props st trace = Some st' ->
  paymentsClient st' = None /\ loadCalls st' = loadCalls st.
Proof.
  intros Hc Hi Hm H.
  destruct (run_stays_released props trace st st' Hm Hc Hi H) as (A & _ & B). auto.
Qed.

(** The script of a page without the API fails to load; two clicks follow. *)
Lemma X5_no_client_witness :
  paymentsClient (state_after defaultProps false
                    [Mounted; ScriptFailed 1; Clicked; Clicked]) = None
  /\ loadCalls (state_after defaultProps false
                  [Mounted; ScriptFailed 1; Clicked; Clicked])
     = loadCalls (state_after defaultProps false [Mounted; ScriptFailed 1]).
Proof.
  apply (X5_no_client_no_payment defaultProps
           (state_after defaultProps false [Mounted; ScriptFailed 1])
           (state_after defaultProps false [Mounted; ScriptFailed 1; Clicked; Clicked])
           [Clicked; Clicked]).
  - vm_compute. reflexivity.
  - vm_compute. reflexivity.
  - vm_compute. reflexivity.
  - vm_compute. reflexivity.
Defined.

(** ** The ready event *)

(** Rewrites with the frame equations of [createAndAddButton] at hand. *)
Ltac use_frames :=
  repeat match goal with
    | Hq : ?f (createAndAddButton ?c ?s) = _
      |- context [?f (createAndAddButton ?c ?s)] => rewrite Hq
    end.

Lemma step_ready_budget (props : Props) (st st' : State) (a : Action) :
  step props st a = Some st' ->
  readyCount (emitted st') + initFlows st'
  <= readyCount (emitted st) + initFlows st + (if is_Mounted a then 1 else 0).
Proof.
  intros H.
  step_counts H; break_tests; cbn; use_frames; cbn;
    rewrite ?readyCount_app, ?filter_app, ?length_app; cbn; lia.
Qed.

Lemma run_ready_budget (props : Props) (trace : list Action) :
  forall st st',
    run props st trace = Some st' ->
    readyCount (emitted st') + initFlows st'
    <= readyCount (emitted st) + initFlows st + mounts trace.
Proof.
  induction trace as [|a trace IH]; intros st st' H; simpl in H.
  - injection H as <-. unfold mounts. simpl. lia.
  - destruct (step props st a) as [st1|] eqn:Hs; [|discriminate].
    pose proof (step_ready_budget props st st1 a Hs) as A.
    pose proof (IH st1 st' H) as B. rewrite mounts_cons. lia.
Qed.

(** X6.  Each run of the [onMounted] hook yields at most one [ready] event:
    along every run of the component, the [ready] events emitted plus the
    initialisations still in flight never exceed the number of times the hook
    ran.  A component mounted once emits [ready] at most once. *)
Theorem X6_ready_at_most_once_per_mount
    (props : Props) (api : bool) (trace : list Action) (st : State) :
  run props (initial api) trace = Some st ->
  readyCount (emitted st) + initFlows st <= mounts trace.
Proof.
  intros H. pose proof (run_ready_budget props trace (initial api) st H) as B.
  cbn in B. exact B.
Qed.

(** The readiness check of [ready_state] answered once; a click follows. *)
Lemma X6_ready_witness :
  readyCount (emitted (clicked_state defaultProps))
  + initFlows (clicked_state defaultProps) <= mounts trace_clicked.
Proof.
  apply (X6_ready_at_most_once_per_mount defaultProps true trace_clicked
           (clicked_state defaultProps)).
  vm_compute. reflexivity.
Defined.

(** ** Events and Status go together *)

(** X7.  A turn of the event loop emits nothing or exactly one event, and an
    emitted event comes with its Status: [success] with 'Payment authorized.
    Processing...', [ready(true)] and [ready(false)] with the available and
    the not-available message and the loading flag off, [error] with one of
    the four failure messages. *)
Theorem X7_event_with_status (props : Props) (st st' : State) (a : Action) :
  step props st a = Some st' ->
  emitted st' = emitted st
  \/ exists e, emitted st' = emitted st ++ [e] /\ status_fits e st'.
Proof.
  intros H.
  step_inv H; segments; unfold status_fits, failureMessages; cbn;
    try (left; now destruct (onBeforeUnmount_frame st) as (_ & E & _));
    try match goal with
        | |- context [createAndAddButton ?c ?s] =>
            destruct (createAndAddButton_frame c s) as (Es & Ee & _);
            destruct (createAndAddButton_loading_client c s) as (El & _);
            destruct result; cbn; rewrite ?Es, ?Ee, ?El; cbn
        end;
    break_tests; cbn;
    first [ left; reflexivity
          | right; eexists; split; [reflexivity|]; cbn; auto 10 ].
Qed.

(** The payment of the clicked adapter is rejected by the vendor. *)
Lemma X7_event_with_status_witness :
  emitted (state_after defaultProps true
             (trace_clicked ++ [PaymentRejected 3 (VendorError "CANCELED")]))
  = emitted (clicked_state defaultProps)
  \/ exists e,
      emitted (state_after defaultProps true
                 (trace_clicked ++ [PaymentRejected 3 (VendorError "CANCELED")]))
      = emitted (clicked_state defaultProps) ++ [e]
      /\ status_fits e
           (state_after defaultProps true
              (trace_clicked ++ [PaymentRejected 3 (VendorError "CANCELED")])).
Proof.
  apply (X7_event_with_status defaultProps (clicked_state defaultProps) _
           (PaymentRejected 3 (VendorError "CANCELED"))).
  vm_compute. reflexivity.
Defined.

(** ** Relays and payment flows *)

Lemma step_posts_follow_successes (props : Props) (st st' : State) (a : Action) :
  step props st a = Some st' ->
  exists new,
    successes (emitted st') = successes (emitted st) ++ new
    /\ posts st'
       = posts st
         ++ (if autoSendToServer props
             then map (mkPost (processEndpoint props) "POST") new else []).
Proof.
  intros H.
  step_inv H; segments; cbn;
    try (exists []; destruct (onBeforeUnmount_frame st) as (_ & E & E3 & _);
         rewrite E, E3; destruct (autoSendToServer props); cbn;
         now rewrite !app_nil_r);
    try match goal with
        | |- context [createAndAddButton ?c ?s] =>
            destruct (createAndAddButton_frame c s) as (_ & Ee & Ep & _)
        end;
    break_tests; cbn; use_frames; cbn; rewrite ?successes_app; cbn;
    first [ exists []; now rewrite !app_nil_r
          | eexists; split; [reflexivity|]; cbn; now rewrite ?app_nil_r ].
Qed.

Lemma run_posts_follow_successes (props : Props) (trace : list Action) :
  forall st st',
    run props st trace = Some st' ->
    exists new,
      successes (emitted st') = successes (emitted st) ++ new
      /\ posts st'
         = posts st
           ++ (if autoSendToServer props
               then map (mkPost (processEndpoint props) "POST") new else []).
Proof.
  induction trace as [|a trace IH]; intros st st' H; simpl in H.
  - injection H as <-. exists [].
    destruct (autoSendToServer props); cbn; now rewrite !app_nil_r.
  - destruct (step props st a) as [st1|] eqn:Hs; [|discriminate].
    destruct (step_posts_follow_successes props st st1 a Hs) as (n1 & A1 & A2).
    destruct (IH st1 st' H) as (n2 & B1 & B2).
    exists (n1 ++ n2). rewrite B1, A1, B2, A2, <- !app_assoc. split; [reflexivity|].
    destruct (autoSendToServer props); [now rewrite map_app|reflexivity].
Qed.

(** X8.  Along every run of a component that relays, the calls of [fetch]
    are, in order, one POST to [processEndpoint] per [success] event, carrying
    that event's payment data: nothing is posted that was not announced to the
    host page, and every announced payment is posted once.  A component that
    does not relay posts nothing. *)
Theorem X8_one_post_per_success
    (props : Props) (api : bool) (trace : list Action) (st : State) :
  run props (initial api) trace = Some st ->
  posts st
  = if autoSendToServer props
    then map (mkPost (processEndpoint props) "POST") (successes (emitted st))
    else [].
Proof.
  intros H.
  destruct (run_posts_follow_successes props trace (initial api) st H) as (new & A & B).
  cbn in A, B. now rewrite B, A.
Qed.

(** The payment of the clicked adapter resolved and the relay was posted. *)
Lemma X8_one_post_witness :
  posts relaying_state
  = map (mkPost "/process-payment" "POST") (successes (emitted relaying_state)).
Proof.
  apply (X8_one_post_per_success defaultProps true trace_relaying relaying_state).
  vm_compute. reflexivity.
Defined.

Lemma step_flow_budget (props : Props) (st st' : State) (a : Action) :
  step props st a = Some st' ->
  exists k,
    loadCalls st' = loadCalls st ++ repeat (getPaymentDataRequest props None None) k
    /\ outstandingFlows st' + length (successes (emitted st'))
       <= outstandingFlows st + length (successes (emitted st)) + k.
Proof.
  intros H.
  step_inv H;
    try match goal with
        | Htp : take_pending _ (pending _) = Some _ |- _ =>
            pose proof (take_pending_count
                          (fun p => match p with
                                    | AwaitLoadPaymentData _ => true
                                    | _ => false
                                    end) _ _ _ _ Htp) as Hcnt;
            cbn in Hcnt
        end;
    segments; unfold outstandingFlows in *; cbn;
    try (exists 0; destruct (onBeforeUnmount_frame st) as (_ & E & _ & E4 & E5 & _);
         rewrite E, E4, E5, app_nil_r; split; [reflexivity|lia]);
    try match goal with
        | |- context [createAndAddButton ?c ?s] =>
            destruct (createAndAddButton_frame c s) as (_ & Ee & _ & E4 & E5 & _)
        end;
    break_tests; cbn; use_frames; cbn;
    rewrite ?successes_app, ?filter_app, ?length_app; cbn;
    first [ exists 0; rewrite app_nil_r; split; [reflexivity|lia]
          | exists 1; split; [reflexivity|lia] ].
Qed.

Lemma run_flow_budget (props : Props) (trace : list Action) :
  forall st st',
    run props st trace = Some st' ->
    exists k,
      loadCalls st' = loadCalls st ++ repeat (getPaymentDataRequest props None None) k
      /\ outstandingFlows st' + length (successes (emitted st'))
         <= outstandingFlows st + length (successes (emitted st)) + k.
Proof.
  induction trace as [|a trace IH]; intros st st' H; simpl in H.
  - injection H as <-. exists 0. rewrite app_nil_r. split; [reflexivity|lia].
  - destruct (step props st a) as [st1|] eqn:Hs; [|discriminate].
    destruct (step_flow_budget props st st1 a Hs) as (k1 & A1 & A2).
    destruct (IH st1 st' H) as (k2 & B1 & B2).
    exists (k1 + k2). rewrite B1, A1, <- app_assoc, repeat_app. split; [reflexivity|lia].
Qed.

(** X9.  Along every run, every request passed to [loadPaymentData] is the
    one built from the configuration, and the payment flows still in progress
    together with the [success] events emitted never exceed the calls of
    [loadPaymentData]: [success] is only emitted for a flow a click
    started. *)
Theorem X9_success_needs_a_click
    (props : Props) (api : bool) (trace : list Action) (st : State) :
  run props (initial api) trace = Some st ->
  Forall (eq (getPaymentDataRequest props None None)) (loadCalls st)
  /\ outstandingFlows st + length (successes (emitted st)) <= length (loadCalls st).
Proof.
  intros H.
  destruct (run_flow_budget props trace (initial api) st H) as (k & A & B).
  cbn in A, B. rewrite A. split.
  - apply Forall_forall. intros r Hr. apply repeat_spec in Hr. now subst.
  - rewrite repeat_length. lia.
Qed.

(** One click, one resolved payment. *)
Lemma X9_success_needs_a_click_witness :
  Forall (eq (getPaymentDataRequest defaultProps None None)) (loadCalls relaying_state)
  /\ outstandingFlows relaying_state + length (successes (emitted relaying_state))
     <= length (loadCalls relaying_state).
Proof.
  apply (X9_success_needs_a_click defaultProps true trace_relaying relaying_state).
  vm_compute. reflexivity.
Defined.

(** ** When a button is shown *)

Lemma run_button_needs_ready (props : Props) (trace : list Action) :
  forall st st',
    no_button st \/ In (EvReady true) (emitted st) ->
    run props st trace = Some st' ->
    no_button st' \/ In (EvReady true) (emitted st').
Proof.
  induction trace as [|a trace IH]; intros st st' Hst H; simpl in H.
  - now injection H as <-.
  - destruct (step props st a) as [st1|] eqn:Hs; [|discriminate].
    apply (IH st1 st'); [|exact H].
    destruct (step_emitted_grows props st st1 a Hs) as (more & E).
    destruct Hst as [Hno | Hin].
    + destruct (not_positive_ready a) eqn:Ea.
      * left. eapply step_no_button; eauto.
      * right. step_inv Hs; cbn in Ea; try discriminate Ea.
        destruct result; [|discriminate Ea].
        unfold initGooglePay_readyResolved. cbn.
        match goal with
        | |- context [createAndAddButton ?c ?s] =>
            destruct (createAndAddButton_frame c s) as (_ & Ee & _)
        end.
        rewrite Ee. cbn. apply in_or_app. right. now left.
    + right. rewrite E. apply in_or_app. now left.
Qed.

(** X10.  A ButtonElement is attached, or held in [buttonElement], only after
    [ready(true)] was emitted: along every run the host page is told that the
    wallet is available before a button can appear. *)
Theorem X10_button_only_after_ready
    (props : Props) (api : bool) (trace : list Action) (st : State) :
  run props (initial api) trace = Some st ->
  attachedButtons st <> [] \/ buttonElement st <> None ->
  In (EvReady true) (emitted st).
Proof.
  intros H Hb.
  destruct (run_button_needs_ready props trace (initial api) st) as [[Hk He] | Hin];
    [left; split; reflexivity|exact H| |exact Hin].
  destruct Hb as [Hb | Hb]; congruence.
Qed.

(** The button of [ready_state] is attached, and [ready(true)] was emitted. *)
Lemma X10_button_only_after_ready_witness : In (EvReady true) (emitted ready_state).
Proof.
  apply (X10_button_only_after_ready defaultProps true trace_ready ready_state).
  - vm_compute. reflexivity.
  - left. vm_compute. discriminate.
Defined.

(** X11.  When a readiness check that is in flight answers yes while the
    adapter has no client (teardown ran in between), [ready(true)] is emitted
    and Status invites to click the button, but [createAndAddButton] returns
    at its guard: [createButton] is not called, the container and
    [buttonElement] stay as they are, and the client stays null. *)
Theorem X11_ready_after_teardown_mounts_nothing
    (props : Props) (st : State) (id : nat) (rest : list (nat * Pending))
    (created : option Node) :
  paymentsClient st = None ->
  take_pending id (pending st) = Some (AwaitIsReady, rest) ->
  exists st',
    step props st (IsReadyResolved id true created) = Some st'
    /\ emitted st' = emitted st ++ [EvReady true]
    /\ status st' = "Google Pay is available. Click the button to pay."
    /\ buttonContainer st' = buttonContainer st
    /\ buttonElement st' = buttonElement st
    /\ paymentsClient st' = None.
Proof.
  intros Hc Htp. cbn [step]. rewrite Htp. eexists. split; [reflexivity|].
  unfold initGooglePay_readyResolved, createAndAddButton. cbn. rewrite Hc. cbn.
  repeat split; assumption.
Qed.

(** Teardown while the readiness check is in flight, then a positive answer
    with a vendor that would hand out button 100. *)
Lemma X11_ready_after_teardown_witness :
  exists st',
    step defaultProps torn_checking_state (IsReadyResolved 2 true (Some 100)) = Some st'
    /\ emitted st' = emitted torn_checking_state ++ [EvReady true]
    /\ status st' = "Google Pay is available. Click the button to pay."
    /\ buttonContainer st' = buttonContainer torn_checking_state
    /\ buttonElement st' = buttonElement torn_checking_state
    /\ paymentsClient st' = None.
Proof.
  apply (X11_ready_after_teardown_mounts_nothing defaultProps torn_checking_state 2 []
           (Some 100)).
  - vm_compute. reflexivity.
  - vm_compute. reflexivity.
Defined.

(** * Further properties of the Stripe widget *)

(** X12.  A cart line whose quantity is missing or falsy is charged like the
    same line with quantity 1, wherever it stands in the cart: a stored
    quantity of [0] does not take the line off the total. *)
Theorem X12_falsy_quantity_charged_once
    (before after : list CartItem) (p : Product) (q : JsQty) :
  qty_truthy q = false ->
  totalAmount (before ++ mkCartItem p q :: after)
  = totalAmount (before ++ mkCartItem p (QtyNumber 1%float) :: after).
Proof.
  intros Hq. unfold totalAmount. rewrite !fold_left_app. cbn [fold_left].
  f_equal. unfold add_item. cbn [qty product].
  destruct q as [| |x]; try reflexivity.
  unfold qty_truthy in Hq. unfold qty_or_1. rewrite Hq. reflexivity.
Qed.

(** The sample cart with the quantity 0 of its last line written as 1. *)
Lemma X12_falsy_quantity_witness :
  totalAmount sample_cart
  = totalAmount
      ([ mkCartItem (mkProduct "lamp" 0x1.3fd70a3d70a3dp+4%float) (QtyNumber 2%float);
         mkCartItem (mkProduct "cable" 0x1.0147ae147ae14p+0%float) QtyUndefined ]
       ++ [mkCartItem (mkProduct "plug" 5%float) (QtyNumber 1%float)]).
Proof.
  apply (X12_falsy_quantity_charged_once
           [ mkCartItem (mkProduct "lamp" 0x1.3fd70a3d70a3dp+4%float) (QtyNumber 2%float);
             mkCartItem (mkProduct "cable" 0x1.0147ae147ae14p+0%float) QtyUndefined ]
           [] (mkProduct "plug" 5%float) (QtyNumber 0%float)).
  vm_compute. reflexivity.
Defined.

(** ** The payment request is built once *)

Lemma take_wait_loadWaits (w : StripeWait) :
  forall ws rest,
    take_wait w ws = Some rest ->
    loadWaits ws
    = (match w with WaitLoadStripe => 1 | WaitCanMakePayment => 0 end) + loadWaits rest.
Proof.
  unfold loadWaits.
  induction ws as [|v ws IH]; intros rest H; simpl in H; [discriminate|].
  destruct w, v; try (injection H as <-; simpl; lia);
    (destruct (take_wait _ ws) as [r|]; [|discriminate]);
    injection H as <-; specialize (IH r eq_refl); simpl in *; lia.
Qed.

Lemma stripe_mounts_cons (a : StripeAction) (trace : list StripeAction) :
  stripe_mounts (a :: trace)
  = (if is_StripeMounted a then 1 else 0) + stripe_mounts trace.
Proof. unfold stripe_mounts. simpl. now destruct (is_StripeMounted a). Qed.

(** Without a hook run waiting for [loadStripe], and without a new run of the
    hook, the request stays the one that was built. *)
Lemma stripe_run_keeps_request (trace : list StripeAction) :
  forall st st',
    loadWaits (waiting st) = 0 ->
    stripe_mounts trace = 0 ->
    stripe_run st trace = Some st' ->
    paymentRequest st' = paymentRequest st.
Proof.
  induction trace as [|a trace IH]; intros st st' Hw Hm H; simpl in H.
  - now injection H as <-.
  - rewrite stripe_mounts_cons in Hm.
    destruct (stripe_step st a) as [st1|] eqn:Hs; [|discriminate].
    destruct a; cbn in Hm; try discriminate Hm; cbn [stripe_step] in Hs.
    + destruct (take_wait WaitLoadStripe (waiting st)) as [rest|] eqn:Ht;
        [|discriminate].
      apply take_wait_loadWaits in Ht. cbn in Ht. lia.
    + destruct (take_wait WaitCanMakePayment (waiting st)) as [rest|] eqn:Ht;
        [|discriminate].
      apply take_wait_loadWaits in Ht. injection Hs as <-.
      apply IH in H; [rewrite H; reflexivity|cbn [waiting]; lia|exact Hm].
    + injection Hs as <-.
      apply IH in H; [rewrite H; reflexivity|exact Hw|exact Hm].
    + destruct (handlerRegistered st); injection Hs as <-;
        (apply IH in H; [rewrite H; reflexivity|exact Hw|exact Hm]).
Qed.

Lemma stripe_run_loadWaits (trace : list StripeAction) :
  forall st st',
    stripe_mounts trace = 0 ->
    stripe_run st trace = Some st' ->
    loadWaits (waiting st') <= loadWaits (waiting st).
Proof.
  induction trace as [|a trace IH]; intros st st' Hm H; simpl in H.
  - injection H as <-. lia.
  - rewrite stripe_mounts_cons in Hm.
    destruct (stripe_step st a) as [st1|] eqn:Hs; [|discriminate].
    specialize (IH st1 st' ltac:(destruct (is_StripeMounted a); lia) H).
    destruct a; cbn in Hm; try discriminate Hm; cbn [stripe_step] in Hs.
    + destruct (take_wait WaitLoadStripe (waiting st)) as [rest|] eqn:Ht;
        [|discriminate].
      apply take_wait_loadWaits in Ht. injection Hs as <-.
      unfold loadWaits in *. cbn in IH. rewrite filter_app, length_app in IH.
      cbn in IH. lia.
    + destruct (take_wait WaitCanMakePayment (waiting st)) as [rest|] eqn:Ht;
        [|discriminate].
      apply take_wait_loadWaits in Ht. injection Hs as <-.
      unfold loadWaits in *. cbn in *. lia.
    + injection Hs as <-. exact IH.
    + destruct (handlerRegistered st); injection Hs as <-; exact IH.
Qed.

(** X13.  In a widget whose [onMounted] hook runs once, the payment request
    is built when [loadStripe] resolves, from the cart as it is at that
    moment (label [totalLabel], amount [totalAmount], country DE, currency
    eur), and it is never rebuilt: whatever is stored in the cart afterwards,
    the request keeps its label and its amount. *)
Theorem X13_request_is_a_snapshot
    (c0 : list CartItem) (before after : list StripeAction)
    (st_load st : StripeState) :
  stripe_mounts (before ++ after) = 0 ->
  stripe_run (stripe_initial c0) (StripeMounted :: before) = Some st_load ->
  stripe_run st_load (StripeLoaded :: after) = Some st ->
  paymentRequest st = Some (paymentRequestOptions (cart st_load)).
Proof.
  intros Hm Hpre Hpost.
  unfold stripe_mounts in Hm. rewrite filter_app, length_app in Hm.
  assert (Hb : stripe_mounts before = 0) by (unfold stripe_mounts; lia).
  assert (Ha : stripe_mounts after = 0) by (unfold stripe_mounts; lia).
  cbn [stripe_run stripe_step] in Hpre.
  pose proof (stripe_run_loadWaits before _ st_load Hb Hpre) as Hw. cbn in Hw.
  cbn [stripe_run stripe_step] in Hpost.
  destruct (take_wait WaitLoadStripe (waiting st_load)) as [rest|] eqn:Ht;
    [|discriminate].
  apply take_wait_loadWaits in Ht.
  apply stripe_run_keeps_request in Hpost;
    [ rewrite Hpost; reflexivity
    | cbn [waiting]; unfold loadWaits in *; rewrite filter_app, length_app;
      cbn in *; lia
    | exact Ha ].
Qed.

(** The sample cart is stored when Stripe loads; a different cart is stored
    afterwards and a payment is made: the request still asks for 4598 cents
    under the label of the sample cart. *)
Lemma X13_request_witness :
  paymentRequest
    (mkStripeState later_cart true (Some (paymentRequestOptions sample_cart))
       true true ["success"] [])
  = Some (paymentRequestOptions sample_cart).
Proof.
  apply (X13_request_is_a_snapshot sample_cart []
           [CanMakePaymentResolved true; CartChanged later_cart; PaymentMethodEvent]
           (mkStripeState sample_cart false None false false [] [WaitLoadStripe])
           (mkStripeState later_cart true (Some (paymentRequestOptions sample_cart))
              true true ["success"] [])).
  - vm_compute. reflexivity.
  - vm_compute. reflexivity.
  - vm_compute. reflexivity.
Defined.

(** ** The notice and the button *)

Lemma take_wait_length (w : StripeWait) :
  forall ws rest, take_wait w ws = Some rest -> length ws = S (length rest).
Proof.
  induction ws as [|v ws IH]; intros rest H; simpl in H; [discriminate|].
  destruct w, v; try (injection H as <-; reflexivity);
    (destruct (take_wait _ ws) as [r|]; [|discriminate]);
    injection H as <-; simpl; now rewrite (IH r eq_refl).
Qed.

Lemma stripe_run_notice (trace : list StripeAction) :
  forall st st',
    googlePayAvailable st = prButtonMounted st ->
    length (waiting st) + stripe_mounts trace <= 1 ->
    (prButtonMounted st = true -> length (waiting st) + stripe_mounts trace = 0) ->
    stripe_run st trace = Some st' ->
    googlePayAvailable st' = prButtonMounted st'.
Proof.
  induction trace as [|a trace IH]; intros st st' He Hb Hm H; simpl in H.
  - now injection H as <-.
  - rewrite stripe_mounts_cons in Hb, Hm.
    destruct (stripe_step st a) as [st1|] eqn:Hs; [|discriminate].
    apply (IH st1 st'); [| | |exact H];
      destruct a; cbn [stripe_step] in Hs; cbn [is_StripeMounted] in Hb, Hm;
      try (destruct (take_wait _ (waiting st)) as [rest|] eqn:Ht; [|discriminate];
           apply take_wait_length in Ht);
      try (destruct (handlerRegistered st));
      injection Hs as <-; cbn; rewrite ?length_app; cbn;
      try (destruct canPay);
      try (destruct (prButtonMounted st) eqn:Ep);
      try specialize (Hm eq_refl); intros; try congruence; try lia.
Qed.

(** X14.  In a widget whose [onMounted] hook runs at most once, the flag
    [googlePayAvailable] is true exactly when the payment-request button has
    been mounted: the notice 'Google Pay ist nicht verfuegbar.' is shown
    exactly when there is no button, before the probe has answered as well as
    after a negative answer. *)
Theorem X14_notice_iff_no_button
    (c0 : list CartItem) (trace : list StripeAction) (st : StripeState) :
  stripe_mounts trace <= 1 ->
  stripe_run (stripe_initial c0) trace = Some st ->
  googlePayAvailable st = prButtonMounted st.
Proof.
  intros Hm H.
  apply (stripe_run_notice trace (stripe_initial c0) st); cbn; auto; discriminate.
Qed.

(** The probe answers no while the cart changes. *)
Lemma X14_notice_witness :
  googlePayAvailable (mkStripeState later_cart false
                        (Some (paymentRequestOptions sample_cart)) false true [] [])
  = prButtonMounted (mkStripeState later_cart false
                       (Some (paymentRequestOptions sample_cart)) false true [] []).
Proof.
  apply (X14_notice_iff_no_button sample_cart
           [StripeMounted; StripeLoaded; CartChanged later_cart;
            CanMakePaymentResolved false]).
  - vm_compute. lia.
  - vm_compute. reflexivity.
Defined.

(** * Further properties of initialisation *)

(** X15.  When the injected script has loaded but the page still has no
    [window.google.payments.api], building the client throws: the second
    [catch] of [initGooglePay] sets Status to 'Error checking Google Pay
    availability.', emits [error] with the TypeError and switches loading off;
    no client is stored, no readiness check is started and no [ready] event is
    emitted. *)
Theorem X15_script_without_api
    (props : Props) (st : State) (id : nat) (rest : list (nat * Pending)) :
  googleApi st = false ->
  take_pending id (pending st) = Some (AwaitScript true, rest) ->
  exists st',
    step props st (ScriptLoaded id false) = Some st'
    /\ status st' = "Error checking Google Pay availability."
    /\ emitted st' = emitted st ++ [EvError TypeError]
    /\ loading st' = false
    /\ paymentsClient st' = paymentsClient st
    /\ pending st' = rest.
Proof.
  intros Hapi Htp. cbn [step]. rewrite Htp. cbn.
  unfold initGooglePay_scriptResolved, initPaymentsClient. cbn. rewrite Hapi. cbn.
  eexists. split; [reflexivity|]. repeat split.
Qed.

(** A page without the API whose injected script defines nothing. *)
Lemma X15_script_without_api_witness :
  exists st',
    step defaultProps (state_after defaultProps false [Mounted]) (ScriptLoaded 1 false)
    = Some st'
    /\ status st' = "Error checking Google Pay availability."
    /\ emitted st' = emitted (state_after defaultProps false [Mounted]) ++ [EvError TypeError]
    /\ loading st' = false
    /\ paymentsClient st' = paymentsClient (state_after defaultProps false [Mounted])
    /\ pending st' = [].
Proof.
  apply (X15_script_without_api defaultProps (state_after defaultProps false [Mounted])
           1 []).
  - vm_compute. reflexivity.
  - vm_compute. reflexivity.
Defined.

Lemma step_client_environment (props : Props) (st st' : State) (a : Action) :
  (forall c, paymentsClient st = Some c -> client_environment c = environment props) ->
  step props st a = Some st' ->
  forall c, paymentsClient st' = Some c -> client_environment c = environment props.
Proof.
  intros Hinv H.
  step_inv H; segments; cbn;
    try (unfold onBeforeUnmount; rewrite detachButton_client; cbn; discriminate);
    try match goal with
        | |- context [createAndAddButton ?c ?s] =>
            destruct (createAndAddButton_loading_client c s) as (_ & Ec)
        end;
    break_tests; cbn; use_frames; cbn; auto;
    intros c0 Hc0; cbn in Hc0;
    first [ now apply Hinv
          | apply Hinv; congruence
          | discriminate Hc0
          | now injection Hc0 as <- ].
Qed.

(** X16.  Whenever the adapter holds a client, the client was built for the
    configured environment: along every run, a non-null [paymentsClient] has
    [environment = props.environment]. *)
Theorem X16_client_environment
    (props : Props) (api : bool) (trace : list Action) :
  forall (st : State) (c : Client),
    run props (initial api) trace = Some st ->
    paymentsClient st = Some c ->
    client_environment c = environment props.
Proof.
  assert (G : forall st0 st,
             (forall c, paymentsClient st0 = Some c ->
                        client_environment c = environment props) ->
             run props st0 trace = Some st ->
             forall c, paymentsClient st = Some c ->
                       client_environment c = environment props).
  { induction trace as [|a trace IH]; intros st0 st Hinv H; simpl in H.
    - now injection H as <-.
    - destruct (step props st0 a) as [st1|] eqn:Hs; [|discriminate].
      apply (IH st1 st); [|exact H]. eapply step_client_environment; eauto. }
  intros st c H Hc. apply (G (initial api) st); auto. cbn. discriminate.
Qed.

(** The client of [ready_state] is a TEST client. *)
Lemma X16_client_environment_witness :
  client_environment (mkClient TEST 1) = environment defaultProps.
Proof.
  apply (X16_client_environment defaultProps true trace_ready ready_state
           (mkClient TEST 1)).
  - vm_compute. reflexivity.
  - vm_compute. reflexivity.
Defined.
